(** * NutriSnap: the daily nutrition ledger, unit conversion, the calorie-goal
    estimator and the profile loader, embedded from the TypeScript sources.

    Conventions of the embedding.
    - A JavaScript [number] is modelled as an exact rational ([Q]); sums and
      products are the exact ones, equality of numbers is [Qeq] ([==]).
      Rounding of IEEE doubles, NaN and the infinities are outside the model.
    - React state and [localStorage] are threaded explicitly: every handler
      takes the state it reads and returns the state it writes.
    - The clock ([new Date()], [Date.now()]) is an explicit argument: the
      number of milliseconds since the epoch. *)

From Stdlib Require Import QArith Qround Qminmax ZArith Lia Lqa Ascii String.
From stdpp Require Import gmap strings list fin_maps.

Local Open Scope Q_scope.

(** [lia] reasons about division and remainder by constants. *)
Ltac Zify.zify_post_hook ::= Z.to_euclidean_division_equations.

(** ** Data model (types.ts) *)

Module Types.

Record MacroData : Type := mkMacroData {
  foodName : string;
  calories : Q;
  protein : Q;
  carbohydrates : Q;
  fat : Q;
  sugar : Q
}.

(** [DailyLogEntry = LoggedMealItem | LoggedExerciseItem], discriminated by
    the [type] field. *)
Inductive DailyLogEntry : Type :=
| LoggedMealItem (id timestamp : string) (items : list MacroData)
| LoggedExerciseItem (id timestamp name : string) (caloriesBurned : Q).

Definition entry_id (e : DailyLogEntry) : string :=
  match e with
  | LoggedMealItem i _ _ => i
  | LoggedExerciseItem i _ _ _ => i
  end.

Definition is_meal (e : DailyLogEntry) : bool :=
  match e with LoggedMealItem _ _ _ => true | _ => false end.

Definition is_exercise (e : DailyLogEntry) : bool :=
  match e with LoggedExerciseItem _ _ _ _ => true | _ => false end.

(** The items of an entry; an exercise has none. *)
Definition entry_items (e : DailyLogEntry) : list MacroData :=
  match e with
  | LoggedMealItem _ _ its => its
  | LoggedExerciseItem _ _ _ _ => []
  end.

End Types.

Import Types.

(** ** Daily totals (Dashboard.tsx, [totals]) *)

Module Totals.

(** The accumulator [{ calories, protein, carbohydrates, fat }]. *)
Record Totals : Type := mkTotals {
  t_calories : Q;
  t_protein : Q;
  t_carbohydrates : Q;
  t_fat : Q
}.

Definition zero : Totals := mkTotals 0 0 0 0.

(** Body of [entry.items.forEach(item => { acc.calories += ... })]. *)
Definition add_item (acc : Totals) (item : MacroData) : Totals :=
  {| t_calories := t_calories acc + calories item;
     t_protein := t_protein acc + protein item;
     t_carbohydrates := t_carbohydrates acc + carbohydrates item;
     t_fat := t_fat acc + fat item |}.

(** Callback of [dailyLog.reduce]. *)
Definition reducer (acc : Totals) (entry : DailyLogEntry) : Totals :=
  match entry with
  | LoggedMealItem _ _ items => fold_left add_item items acc
  | LoggedExerciseItem _ _ _ caloriesBurned =>
      {| t_calories := t_calories acc - caloriesBurned;
         t_protein := t_protein acc;
         t_carbohydrates := t_carbohydrates acc;
         t_fat := t_fat acc |}
  end.

Definition computeTotals (dailyLog : list DailyLogEntry) : Totals :=
  fold_left reducer dailyLog zero.

End Totals.

(** ** Per-day rollup of the Progress view (Progress.tsx, [last7DaysData]) *)

Module Progress.

(** The accumulator [{ calories, protein, carbs, fat }]. *)
Record Totals : Type := mkTotals {
  calories : Q;
  protein : Q;
  carbs : Q;
  fat : Q
}.

Definition add_item (acc : Totals) (item : MacroData) : Totals :=
  {| calories := calories acc + item.(Types.calories);
     protein := protein acc + item.(Types.protein);
     carbs := carbs acc + item.(Types.carbohydrates);
     fat := fat acc + item.(Types.fat) |}.

Definition reducer (acc : Totals) (entry : DailyLogEntry) : Totals :=
  match entry with
  | LoggedMealItem _ _ items => fold_left add_item items acc
  | LoggedExerciseItem _ _ _ caloriesBurned =>
      {| calories := calories acc - caloriesBurned;
         protein := protein acc;
         carbs := carbs acc;
         fat := fat acc |}
  end.

(** [dayLog.reduce(..., { calories: 0, protein: 0, carbs: 0, fat: 0 })]. *)
Definition dayTotals (dayLog : list DailyLogEntry) : Totals :=
  fold_left reducer dayLog (mkTotals 0 0 0 0).

End Progress.

(** ** JavaScript built-ins used by the components *)

Module JS.

(** [Math.max(a, b)] on numbers. *)
Definition Math_max (a b : Q) : Q := Qmax a b.

(** [Math.round(x)]: the integer [floor(x + 1/2)] (ties go up). *)
Definition Math_round (x : Q) : Z := Qfloor (x + (1 # 2)).

(** Truthiness of a number: every number but zero. *)
Definition truthy_num (x : Q) : bool := negb (Qeq_bool x 0).

(** Truthiness of a string: every string but the empty one. *)
Definition truthy_str (s : string) : bool :=
  match s with EmptyString => false | _ => true end.

(** [a > b] on numbers. *)
Definition gt (a b : Q) : bool := negb (Qle_bool a b).

(** [x || 0] for an optional number. *)
Definition or_zero (x : option Q) : Q :=
  match x with
  | Some v => if truthy_num v then v else 0
  | None => 0
  end.





(** Decimal digits of a non-negative integer, most significant first;
    [fuel] bounds the number of digits. *)
Fixpoint digits_fuel (fuel : nat) (n : Z) (acc : string) : string :=
  match fuel with
  | O => acc
  | S f =>
      let acc' := String (ascii_of_nat (48 + Z.to_nat (n mod 10))) acc in
      if (n <? 10)%Z then acc' else digits_fuel f (n / 10)%Z acc'
  end.

(** [String(n)] for an integer [n]. *)
Definition string_of_int (n : Z) : string :=
  let d := digits_fuel (S (Z.to_nat (Z.log2 (Z.abs n)))) (Z.abs n) "" in
  if (n <? 0)%Z then String "-" d else d.

(** The last [w] decimal digits of [n], zero padded. *)
Fixpoint pad_digits (w : nat) (n : Z) (acc : string) : string :=
  match w with
  | O => acc
  | S w' =>
      pad_digits w' (n / 10)%Z
        (String (ascii_of_nat (48 + Z.to_nat (n mod 10))) acc)
  end.

(** *** Dates: a time value is a number of milliseconds since the epoch *)

Definition msPerDay : Z := 86400000.

(** [Day(t)] and [TimeWithinDay(t)] of ECMA-262. *)
Definition Day (t : Z) : Z := (t / msPerDay)%Z.
Definition TimeWithinDay (t : Z) : Z := (t mod msPerDay)%Z.

(** Year, month (1..12) and day of the month (1..31) of a day number in
    the proleptic Gregorian calendar. *)
Definition civil_from_days (day : Z) : Z * Z * Z :=
  (let z := day + 719468 in
   let era := z / 146097 in
   let doe := z - era * 146097 in
   let yoe := (doe - doe / 1460 + doe / 36524 - doe / 146096) / 365 in
   let doy := doe - (365 * yoe + yoe / 4 - yoe / 100) in
   let mp := (5 * doy + 2) / 153 in
   let d := doy - (153 * mp + 2) / 5 + 1 in
   let m := if mp <? 10 then mp + 3 else mp - 9 in
   let y := yoe + era * 400 in
   (if m <=? 2 then y + 1 else y, m, d))%Z.

(** The year part of [toISOString]: four digits for the years 0..9999,
    otherwise a sign and six digits. *)
Definition iso_year (y : Z) : string :=
  if ((0 <=? y) && (y <=? 9999))%Z then pad_digits 4 y ""
  else String (if (y <? 0)%Z then "-" else "+")%char (pad_digits 6 (Z.abs y) "").

(** [Date.prototype.toISOString]: the UTC fields of the time value, as
    [YYYY-MM-DDTHH:mm:ss.sssZ]. *)
Definition toISOString (t : Z) : string :=
  let '(y, m, d) := civil_from_days (Day t) in
  let ms := TimeWithinDay t in
  (iso_year y ++ "-" ++ pad_digits 2 m "" ++ "-" ++ pad_digits 2 d "" ++ "T"
   ++ pad_digits 2 (ms / 3600000)%Z "" ++ ":"
   ++ pad_digits 2 (ms / 60000 mod 60)%Z "" ++ ":"
   ++ pad_digits 2 (ms / 1000 mod 60)%Z "" ++ "."
   ++ pad_digits 3 (ms mod 1000)%Z "" ++ "Z")%string.

(** [s.slice(0, n)] *)
Definition slice0 (n : nat) (s : string) : string := substring 0 n s.


End JS.

(** ** The dashboard component (Dashboard.tsx): state, storage, handlers *)

Module Dashboard.

(** A row of the manual form: [Partial<MacroData> & { isLoading?: boolean }]. *)
Module ManualItem.
Record t : Type := mk {
  foodName : option string;
  calories : option Q;
  protein : option Q;
  carbohydrates : option Q;
  fat : option Q;
  sugar : option Q;
  isLoading : option bool
}.
End ManualItem.

(** A row of the activity form; [None] stands for the empty string of a
    [number | ''] field. *)
Module ActivityItem.
Record t : Type := mk {
  name : string;
  duration : option Q;
  caloriesBurned : option Q
}.
End ActivityItem.

Record EditingItemState : Type := mkEditing {
  mealId : string;
  itemIndex : Z;
  data : MacroData
}.

(** The part of the component state the handlers below read or write. *)
Record State : Type := mkState {
  dailyLog : list DailyLogEntry;
  waterIntake : Q;
  error : option string;
  manualItems : list ManualItem.t;
  activityItems : list ActivityItem.t;
  editingItem : option EditingItemState
}.

(** The three [localStorage] keys of the component, after [JSON.parse]:
    an absent key is [None]; an absent ['nutrisnap_dailyLogs'] reads as the
    empty object. *)
Record Storage : Type := mkStorage {
  nutrisnap_dailyLogs : gmap string (list DailyLogEntry);
  nutrisnap_waterIntake : option Q;
  nutrisnap_logDate : option string
}.

Definition blankManualItem : ManualItem.t :=
  ManualItem.mk (Some ""%string) None None None None None (Some false).

Definition blankActivityItem : ActivityItem.t :=
  ActivityItem.mk ""%string None None.

(** [new Date().toISOString().slice(0, 10)], the clock reading [now]. *)
Definition getTodaysDateKey (now : Z) : string :=
  JS.slice0 10 (JS.toISOString now).

Definition set_dailyLog (log : list DailyLogEntry) (st : State) : State :=
  mkState log (waterIntake st) (error st) (manualItems st) (activityItems st)
    (editingItem st).

Definition set_waterIntake (w : Q) (st : State) : State :=
  mkState (dailyLog st) w (error st) (manualItems st) (activityItems st)
    (editingItem st).

Definition set_error (e : option string) (st : State) : State :=
  mkState (dailyLog st) (waterIntake st) e (manualItems st) (activityItems st)
    (editingItem st).

Definition set_manualItems (m : list ManualItem.t) (st : State) : State :=
  mkState (dailyLog st) (waterIntake st) (error st) m (activityItems st)
    (editingItem st).

Definition set_activityItems (a : list ActivityItem.t) (st : State) : State :=
  mkState (dailyLog st) (waterIntake st) (error st) (manualItems st) a
    (editingItem st).

Definition set_editingItem (e : option EditingItemState) (st : State) : State :=
  mkState (dailyLog st) (waterIntake st) (error st) (manualItems st)
    (activityItems st) e.

(** The mount effect: read today's bucket and today's water count. *)
Definition mount (now : Z) (st : State) (ls : Storage) : State * Storage :=
  let today := getTodaysDateKey now in
  let st1 := set_dailyLog (default [] (nutrisnap_dailyLogs ls !! today)) st in
  if bool_decide (nutrisnap_logDate ls = Some today) then
    (set_waterIntake (default 0 (nutrisnap_waterIntake ls)) st1, ls)
  else
    (set_waterIntake 0 st1, mkStorage (nutrisnap_dailyLogs ls) None None).

Definition saveLog (now : Z) (log : list DailyLogEntry)
    (st : State) (ls : Storage) : State * Storage :=
  let today := getTodaysDateKey now in
  (set_dailyLog log st,
   mkStorage (<[today := log]> (nutrisnap_dailyLogs ls))
     (nutrisnap_waterIntake ls) (nutrisnap_logDate ls)).

Definition saveWaterIntake (now : Z) (glasses : Q)
    (st : State) (ls : Storage) : State * Storage :=
  let today := getTodaysDateKey now in
  let newIntake := JS.Math_max 0 glasses in
  (set_waterIntake newIntake st,
   mkStorage (nutrisnap_dailyLogs ls) (Some newIntake) (Some today)).

Definition handleWaterChange (now : Z) (amount : Q)
    (st : State) (ls : Storage) : State * Storage :=
  saveWaterIntake now (waterIntake st + amount) st ls.

(** [clearDailyLog], [confirm] being the answer of [window.confirm]. *)
Definition clearDailyLog (confirm : bool) (now : Z)
    (st : State) (ls : Storage) : State * Storage :=
  if confirm then
    let '(st1, ls1) := saveLog now [] st ls in
    saveWaterIntake now 0 st1 ls1
  else (st, ls).

(** The continuation of [handleAnalyzeClick] once the analysis service has
    answered: [inr items] is its result, [inl msg] the message of the error
    it threw. [timestamp] is the text [toLocaleTimeString] gives for [now]. *)
Definition handleAnalyzeClick (now : Z) (timestamp : string)
    (analysis : string + list MacroData)
    (st : State) (ls : Storage) : State * Storage :=
  let st0 := set_error None st in
  match analysis with
  | inr analysisResults =>
      let newLogEntry :=
        LoggedMealItem ("meal_" ++ JS.string_of_int now) timestamp
          analysisResults in
      saveLog now (newLogEntry :: dailyLog st0) st0 ls
  | inl message =>
      (set_error
         (Some (if JS.truthy_str message then message
                else "An unknown error occurred."%string)) st0, ls)
  end.

(** *** Manual log *)

(** The predicate of [manualItems.filter]. *)
Definition manualItemValid (item : ManualItem.t) : bool :=
  match ManualItem.foodName item, ManualItem.calories item with
  | Some n, Some c => JS.truthy_str n && JS.gt c 0
  | _, _ => false
  end.

(** The function of the [map] that follows; only called on valid rows. *)
Definition manualItemData (item : ManualItem.t) : MacroData :=
  {| foodName := default ""%string (ManualItem.foodName item);
     calories := default 0 (ManualItem.calories item);
     protein := JS.or_zero (ManualItem.protein item);
     carbohydrates := JS.or_zero (ManualItem.carbohydrates item);
     fat := JS.or_zero (ManualItem.fat item);
     sugar := JS.or_zero (ManualItem.sugar item) |}.

Definition manualError : string :=
  "Please enter at least one food item with a name and calories.".

Definition handleManualLogSubmit (now : Z) (timestamp : string)
    (st : State) (ls : Storage) : State * Storage :=
  let st0 := set_error None st in
  let validItems := manualItemData <$> filter manualItemValid (manualItems st0) in
  if (length validItems =? 0)%nat then
    (set_error (Some manualError) st0, ls)
  else
    let newLogEntry :=
      LoggedMealItem ("meal_" ++ JS.string_of_int now) timestamp validItems in
    let '(st1, ls1) := saveLog now (newLogEntry :: dailyLog st0) st0 ls in
    (set_manualItems [blankManualItem] st1, ls1).

(** *** Activity log *)





(** *** Deleting and editing logged items *)

(** [l.filter((x, index) => p(index))], the indices counted from [i]. *)
Fixpoint filter_index {A : Type} (p : nat -> bool) (i : nat) (l : list A)
    : list A :=
  match l with
  | [] => []
  | x :: r =>
      if p i then x :: filter_index p (S i) r else filter_index p (S i) r
  end.

(** [index !== itemIndex] *)
Definition index_differs (itemIndex : Z) (index : nat) : bool :=
  negb (Z.of_nat index =? itemIndex)%Z.

(** The function mapped over the log when one item is deleted. *)
Definition dropItem (entryId : string) (itemIndex : Z) (entry : DailyLogEntry)
    : DailyLogEntry :=
  match entry with
  | LoggedMealItem i ts items =>
      if (i =? entryId)%string then
        LoggedMealItem i ts (filter_index (index_differs itemIndex) 0 items)
      else entry
  | LoggedExerciseItem _ _ _ _ => entry
  end.

(** The predicate of the filter that follows:
    [type === 'exercise' || (type === 'meal' && items.length > 0)]. *)
Definition keepEntry (entry : DailyLogEntry) : bool :=
  match entry with
  | LoggedExerciseItem _ _ _ _ => true
  | LoggedMealItem _ _ items => (0 <? length items)%nat
  end.

(** The new log [handleDeleteItem] computes; [itemIndex = None] is the call
    without the second argument. *)
Definition deleteFromLog (entryId : string) (itemIndex : option Z)
    (log : list DailyLogEntry) : list DailyLogEntry :=
  match itemIndex with
  | Some idx => filter keepEntry (dropItem entryId idx <$> log)
  | None => filter (fun entry => negb (entry_id entry =? entryId)%string) log
  end.

Definition handleDeleteItem (confirm : bool) (now : Z)
    (entryId : string) (itemIndex : option Z)
    (st : State) (ls : Storage) : State * Storage :=
  if confirm then saveLog now (deleteFromLog entryId itemIndex (dailyLog st)) st ls
  else (st, ls).

(** [deleteMealItem(entryId, itemIndex)] of the ledger. *)
Definition deleteMealItem (entryId : string) (itemIndex : Z)
    (log : list DailyLogEntry) : list DailyLogEntry :=
  deleteFromLog entryId (Some itemIndex) log.

Definition handleStartEdit (mealId : string) (item : MacroData) (itemIndex : Z)
    (st : State) : State :=
  set_editingItem (Some (mkEditing mealId itemIndex item)) st.

Definition handleCancelEdit (st : State) : State := set_editingItem None st.

(** [a = [...l]; a[i] = x] on an array of items. A negative [i] names a
    property that is no element, so the elements stay; [i = length] appends;
    a larger [i] leaves holes, and an array with holes is no list of
    [MacroData]: the result is [None]. *)
Definition array_assign {A : Type} (l : list A) (i : Z) (x : A)
    : option (list A) :=
  if (i <? 0)%Z then Some l
  else
    let n := Z.to_nat i in
    if (n <? length l)%nat then Some (<[n := x]> l)
    else if (n =? length l)%nat then Some (l ++ [x])
    else None.

(** The function mapped over the log by [handleSaveEdit]. *)
Definition replaceItem (e : EditingItemState) (entry : DailyLogEntry)
    : option DailyLogEntry :=
  match entry with
  | LoggedMealItem i ts items =>
      if (i =? mealId e)%string then
        LoggedMealItem i ts <$> array_assign items (itemIndex e) (data e)
      else Some entry
  | LoggedExerciseItem _ _ _ _ => Some entry
  end.

(** [editMealItem(entryId, itemIndex, updatedMacroEntry)] of the ledger. *)
Definition editMealItem (entryId : string) (itemIndex : Z)
    (updated : MacroData) (log : list DailyLogEntry)
    : option (list DailyLogEntry) :=
  mapM (replaceItem (mkEditing entryId itemIndex updated)) log.

Definition handleSaveEdit (now : Z) (st : State) (ls : Storage)
    : option (State * Storage) :=
  match editingItem st with
  | None => Some (st, ls)
  | Some e =>
      newLog ← editMealItem (mealId e) (itemIndex e) (data e) (dailyLog st);
      let '(st1, ls1) := saveLog now newLog st ls in
      Some (set_editingItem None st1, ls1)
  end.

Section EditForm.

(** [parseFloat] on the text of a number input. *)
Variable parseFloat : string -> Q.

(** [{ ...data, [name]: isNumeric ? (value === '' ? 0 : parseFloat(value)) : value }];
    a [name] that is no field of [MacroData] adds a property the model does
    not see. *)
Definition editField (name value : string) (d : MacroData) : MacroData :=
  let num := if (value =? "")%string then 0 else parseFloat value in
  if (name =? "foodName")%string then
    mkMacroData value (calories d) (protein d) (carbohydrates d) (fat d) (sugar d)
  else if (name =? "calories")%string then
    mkMacroData (foodName d) num (protein d) (carbohydrates d) (fat d) (sugar d)
  else if (name =? "protein")%string then
    mkMacroData (foodName d) (calories d) num (carbohydrates d) (fat d) (sugar d)
  else if (name =? "carbohydrates")%string then
    mkMacroData (foodName d) (calories d) (protein d) num (fat d) (sugar d)
  else if (name =? "fat")%string then
    mkMacroData (foodName d) (calories d) (protein d) (carbohydrates d) num (sugar d)
  else if (name =? "sugar")%string then
    mkMacroData (foodName d) (calories d) (protein d) (carbohydrates d) (fat d) num
  else d.

Definition handleEditFormChange (name value : string) (st : State) : State :=
  match editingItem st with
  | None => st
  | Some e =>
      set_editingItem
        (Some (mkEditing (mealId e) (itemIndex e) (editField name value (data e))))
        st
  end.

End EditForm.

End Dashboard.

(** ** Onboarding (Onboarding.tsx): conversions and the calorie goal *)

Module Onboarding.

Definition LBS_IN_KG : Q := 2.20462.
Definition CM_IN_INCH : Q := 2.54.

Definition lbsToKg (lbs : Q) : Q := lbs / LBS_IN_KG.
Definition inToCm (inches : Q) : Q := inches * CM_IN_INCH.

(** The values of [UserProfile.activityLevel] and [UserProfile.fitnessGoal]. *)
Inductive ActivityLevel : Type :=
| Sedentary | LightlyActive | ModeratelyActive | VeryActive | ExtraActive.

Inductive FitnessGoal : Type :=
| LoseWeight | MaintainWeight | BuildMuscle.

(** The fields of [formData] the estimator reads; [None] is [undefined]. *)
Record FormData : Type := mkFormData {
  age : option Q;
  height : option Q;
  currentWeight : option Q;
  activityLevel : option ActivityLevel;
  fitnessGoal : option FitnessGoal
}.

Definition activityMultipliers (a : ActivityLevel) : Q :=
  match a with
  | Sedentary => 1.2
  | LightlyActive => 1.375
  | ModeratelyActive => 1.55
  | VeryActive => 1.725
  | ExtraActive => 1.9
  end.

Definition goalAdjustments (g : FitnessGoal) : Q :=
  match g with
  | LoseWeight => -500
  | MaintainWeight => 0
  | BuildMuscle => 300
  end.

Definition calculatedCalorieGoal (formData : FormData) : Z :=
  match age formData, height formData, currentWeight formData,
        activityLevel formData, fitnessGoal formData with
  | Some age, Some height, Some currentWeight,
    Some activityLevel, Some fitnessGoal =>
      if JS.truthy_num age && JS.truthy_num height
         && JS.truthy_num currentWeight then
        let bmr := 10 * currentWeight + 6.25 * height - 5 * age + 5 in
        let tdee := bmr * activityMultipliers activityLevel in
        JS.Math_round (tdee + goalAdjustments fitnessGoal)
      else 0%Z
  | _, _, _, _, _ => 0%Z
  end.

End Onboarding.

(** ** Profile (Profile.tsx): the four unit conversions *)

Module Profile.

Definition LBS_IN_KG : Q := 2.20462.
Definition CM_IN_INCH : Q := 2.54.

Definition kgToLbs (kg : Q) : Q := kg * LBS_IN_KG.
Definition lbsToKg (lbs : Q) : Q := lbs / LBS_IN_KG.
Definition cmToIn (cm : Q) : Q := cm / CM_IN_INCH.
Definition inToCm (inches : Q) : Q := inches * CM_IN_INCH.

End Profile.

(** ** App (App.tsx): loading the persisted profile on mount *)

Module App.

(** A value [JSON.parse] can return. *)
#[local] Set Warnings "-register-all".
Inductive JSON : Type :=
| JNull
| JBool (b : bool)
| JNum (n : Q)
| JStr (s : string)
| JArr (elements : list JSON)
| JObj (properties : gmap string JSON).

(** Truthiness: [null], [false], [0] and [''] are falsy. *)
Definition truthy (v : JSON) : bool :=
  match v with
  | JNull => false
  | JBool b => b
  | JNum n => JS.truthy_num n
  | JStr s => JS.truthy_str s
  | JArr _ | JObj _ => true
  end.

(** [typeof v === 'object'] *)
Definition typeof_object (v : JSON) : bool :=
  match v with
  | JNull | JArr _ | JObj _ => true
  | JBool _ | JNum _ | JStr _ => false
  end.

(** The own enumerable properties an object spread copies: the properties
    of an object, the indices of an array, none of a primitive. *)
Definition own_properties (v : JSON) : gmap string JSON :=
  match v with
  | JObj props => props
  | JArr elements =>
      list_to_map (imap (fun i x => (JS.string_of_int (Z.of_nat i), x)) elements)
  | _ => ∅
  end.

Definition defaultProfile : gmap string JSON :=
  {[ "name"%string := JStr "User"; "email"%string := JStr "";
     "avatarUrl"%string := JStr "" ]}.

(** [!!obj[k]]: an absent property reads [undefined], which is falsy. *)
Definition truthy_prop (obj : gmap string JSON) (k : string) : bool :=
  match obj !! k with
  | Some v => truthy v
  | None => false
  end.

(** The component state the effect writes; [userProfile] holds the merged
    object. *)
Record State : Type := mkState {
  userProfile : option (gmap string JSON);
  isOnboardingComplete : bool
}.

Definition initial : State := mkState None false.

Inductive Screen : Type := SignUp | Onboarding | Main.

(** What [App] renders. *)
Definition render (st : State) : Screen :=
  match userProfile st with
  | None => SignUp
  | Some _ => if isOnboardingComplete st then Main else Onboarding
  end.

(** Both [removeItem] calls of the clearing branches. *)
Definition clearProfile (ls : gmap string string) : gmap string string :=
  delete "nutrisnap_onboardingComplete"%string
    (delete "nutrisnap_userProfile"%string ls).

Section Load.

(** [JSON.parse]; [None] when it throws. *)
Variable JSON_parse : string -> option JSON.

(** The mount effect of [App], on [localStorage] as a map from keys to
    strings. No branch lets an exception escape: the [catch] clears too. *)
Definition loadProfile (st : State) (ls : gmap string string)
    : State * gmap string string :=
  match ls !! "nutrisnap_userProfile"%string with
  | Some savedProfileJSON =>
      if JS.truthy_str savedProfileJSON then
        match JSON_parse savedProfileJSON with
        | Some savedProfile =>
            if truthy savedProfile && typeof_object savedProfile then
              let migratedProfile :=
                own_properties savedProfile ∪ defaultProfile in
              if truthy_prop migratedProfile "name"
                 && truthy_prop migratedProfile "email"
                 && truthy_prop migratedProfile "avatarUrl" then
                let onboardingStatus :=
                  ls !! "nutrisnap_onboardingComplete"%string in
                (mkState (Some migratedProfile)
                   (bool_decide (onboardingStatus = Some "true"%string)), ls)
              else (st, clearProfile ls)
            else (st, clearProfile ls)
        | None => (st, clearProfile ls)
        end
      else (st, ls)
  | None => (st, ls)
  end.

End Load.

End App.

(** ** Reference definitions, written from the specification *)

Module Reference.

Definition sumQ (l : list Q) : Q := foldr Qplus 0 l.

(** All items of all meals of a log, in order. *)
Definition mealItems (log : list DailyLogEntry) : list MacroData :=
  log ≫= entry_items.

(** The calories burned by the exercises of a log, in order. *)
Definition burned (log : list DailyLogEntry) : list Q :=
  log ≫= (fun e =>
    match e with
    | LoggedExerciseItem _ _ _ c => [c]
    | LoggedMealItem _ _ _ => []
    end).

(** [DailyTotals]: the sums of the meals' items, exercise subtracted from
    the calories only, no clamping. *)
Definition dailyTotals (log : list DailyLogEntry) : Totals.Totals :=
  {| Totals.t_calories := sumQ (calories <$> mealItems log) - sumQ (burned log);
     Totals.t_protein := sumQ (protein <$> mealItems log);
     Totals.t_carbohydrates := sumQ (carbohydrates <$> mealItems log);
     Totals.t_fat := sumQ (fat <$> mealItems log) |}.

(** [appendEntries(newEntries)]: the new entries go in front. *)
Definition appendEntries (newEntries log : list DailyLogEntry)
    : list DailyLogEntry :=
  newEntries ++ log.





(** The activity factors and goal adjustments of the estimator. *)
Definition activityFactor (a : Onboarding.ActivityLevel) : Q :=
  match a with
  | Onboarding.Sedentary => 12 # 10
  | Onboarding.LightlyActive => 1375 # 1000
  | Onboarding.ModeratelyActive => 155 # 100
  | Onboarding.VeryActive => 1725 # 1000
  | Onboarding.ExtraActive => 19 # 10
  end.

Definition goalAdjustment (g : Onboarding.FitnessGoal) : Q :=
  match g with
  | Onboarding.LoseWeight => -500
  | Onboarding.MaintainWeight => 0
  | Onboarding.BuildMuscle => 300
  end.

(** The estimate before rounding:
    [(10 weight + 6.25 height - 5 age + 5) factor + adjustment]. *)
Definition estimate (age height weight : Q)
    (a : Onboarding.ActivityLevel) (g : Onboarding.FitnessGoal) : Q :=
  (10 * weight + (625 # 100) * height - 5 * age + 5) * activityFactor a
  + goalAdjustment g.

End Reference.

(** ** Predicates and sample data used in the statements *)

(** Equality of totals: the four fields are equal numbers. *)
Definition Totals_eq (a b : Totals.Totals) : Prop :=
  Totals.t_calories a == Totals.t_calories b /\
  Totals.t_protein a == Totals.t_protein b /\
  Totals.t_carbohydrates a == Totals.t_carbohydrates b /\
  Totals.t_fat a == Totals.t_fat b.

(** Componentwise sum of totals. *)
Definition Totals_plus (a b : Totals.Totals) : Totals.Totals :=
  {| Totals.t_calories := Totals.t_calories a + Totals.t_calories b;
     Totals.t_protein := Totals.t_protein a + Totals.t_protein b;
     Totals.t_carbohydrates := Totals.t_carbohydrates a + Totals.t_carbohydrates b;
     Totals.t_fat := Totals.t_fat a + Totals.t_fat b |}.

(** Totals of the Progress view and totals of the Dashboard that hold the
    same four numbers ([carbs] being [carbohydrates]). *)
Definition same_totals (p : Progress.Totals) (t : Totals.Totals) : Prop :=
  Progress.calories p = Totals.t_calories t /\
  Progress.protein p = Totals.t_protein t /\
  Progress.carbs p = Totals.t_carbohydrates t /\
  Progress.fat p = Totals.t_fat t.

(** An input the guard of the estimator takes for missing: [undefined], or
    the number zero. *)
Definition missing (x : option Q) : Prop :=
  match x with
  | None => True
  | Some v => v == 0
  end.


(** [l'] is [l] with the element at position [n] replaced by [x] and
    nothing else changed. *)
Definition replaced_at {A : Type} (n : nat) (x : A) (l l' : list A) : Prop :=
  length l' = length l /\
  l' !! n = Some x /\
  forall j, j <> n -> l' !! j = l !! j.




(** The parsed records the loader accepts: objects whose [email] and
    [avatarUrl] are truthy and whose [name] is truthy or absent. *)
Definition accepts (v : App.JSON) : bool :=
  match v with
  | App.JObj props =>
      App.truthy_prop props "email" && App.truthy_prop props "avatarUrl" &&
      match props !! "name"%string with
      | Some n => App.truthy n
      | None => true
      end
  | _ => false
  end.

(** Strings that start with a decimal digit. *)
Definition digit_head (s : string) : Prop :=
  match s with
  | String c _ => (48 <= nat_of_ascii c <= 57)%nat
  | EmptyString => False
  end.

(** A double quote, and the text of a record without a [name]:
    [{"email":"a@b.c","avatarUrl":"data:,"}]. *)
Definition dq : string := String (ascii_of_nat 34) EmptyString.

Definition namelessText : string :=
  ("{" ++ dq ++ "email" ++ dq ++ ":" ++ dq ++ "a@b.c" ++ dq ++ ","
   ++ dq ++ "avatarUrl" ++ dq ++ ":" ++ dq ++ "data:," ++ dq ++ "}")%string.

Definition namelessRecord : App.JSON :=
  App.JObj {[ "email"%string := App.JStr "a@b.c"; "avatarUrl"%string := App.JStr "data:," ]}.

(** [JSON.parse] on that text; no other text is parsed below. *)
Definition parseNameless (s : string) : option App.JSON :=
  if (s =? namelessText)%string then Some namelessRecord else None.

(** ** The forms of the dashboard (Dashboard.tsx): rows and their inputs *)

Module Forms.

(** [keyof MacroData] *)
Inductive MacroField : Type :=
| FoodName | Calories | Protein | Carbohydrates | Fat | Sugar.





(** [addManualItem] and [addActivityItem]: one more blank row at the end. *)
Definition addManualItem (st : Dashboard.State) : Dashboard.State :=
  Dashboard.set_manualItems
    (Dashboard.manualItems st ++ [Dashboard.blankManualItem]) st.

Definition addActivityItem (st : Dashboard.State) : Dashboard.State :=
  Dashboard.set_activityItems
    (Dashboard.activityItems st ++ [Dashboard.blankActivityItem]) st.

(** [removeManualItem(index)]: nothing is removed from a form of one row. *)
Definition removeManualItem (index : nat) (st : Dashboard.State)
    : Dashboard.State :=
  if (1 <? length (Dashboard.manualItems st))%nat then
    Dashboard.set_manualItems
      (Dashboard.filter_index (Dashboard.index_differs (Z.of_nat index)) 0
         (Dashboard.manualItems st)) st
  else st.

Definition removeActivityItem (index : nat) (st : Dashboard.State)
    : Dashboard.State :=
  if (1 <? length (Dashboard.activityItems st))%nat then
    Dashboard.set_activityItems
      (Dashboard.filter_index (Dashboard.index_differs (Z.of_nat index)) 0
         (Dashboard.activityItems st)) st
  else st.

Section Inputs.

(** [parseFloat] and [parseInt(., 10)] on the text of a number input. *)
Variable parseFloat : string -> Q.
Variable parseInt : string -> Q.

(** [{ ...row, [field]: isNumericField ? (value === '' ? undefined
    : parseFloat(value)) : value }] *)
Definition setManualField (field : MacroField) (value : string)
    (row : Dashboard.ManualItem.t) : Dashboard.ManualItem.t :=
  let num := if (value =? "")%string then None else Some (parseFloat value) in
  let '(Dashboard.ManualItem.mk n c p cb f s l) := row in
  match field with
  | FoodName => Dashboard.ManualItem.mk (Some value) c p cb f s l
  | Calories => Dashboard.ManualItem.mk n num p cb f s l
  | Protein => Dashboard.ManualItem.mk n c num cb f s l
  | Carbohydrates => Dashboard.ManualItem.mk n c p num f s l
  | Fat => Dashboard.ManualItem.mk n c p cb num s l
  | Sugar => Dashboard.ManualItem.mk n c p cb f num l
  end.

(** [handleManualItemChange(index, field, value)]; the spread of a row
    that does not exist is the row without any field. The result is [None]
    when the assignment would leave holes in the array. *)
Definition handleManualItemChange (index : nat) (field : MacroField)
    (value : string) (st : Dashboard.State) : option Dashboard.State :=
  let row :=
    default (Dashboard.ManualItem.mk None None None None None None None)
      (Dashboard.manualItems st !! index) in
  newItems ← Dashboard.array_assign (Dashboard.manualItems st)
               (Z.of_nat index) (setManualField field value row);
  Some (Dashboard.set_manualItems newItems st).





End Inputs.

(** The continuation of [handleBarcodeScanned] once [lookupBarcode] has
    answered: [inr (Some item)] is the product found, [inr None] is "not
    found", [inl msg] the message of the error thrown. The state is the one
    the handler was called in. *)
Definition handleBarcodeScanned (now : Z) (timestamp barcode : string)
    (lookup : string + option MacroData)
    (st : Dashboard.State) (ls : Dashboard.Storage)
    : Dashboard.State * Dashboard.Storage :=
  let st0 := Dashboard.set_error None st in
  match lookup with
  | inr (Some foodData) =>
      let newLogEntry :=
        LoggedMealItem ("meal_barcode_" ++ JS.string_of_int now) timestamp
          [foodData] in
      Dashboard.saveLog now (newLogEntry :: Dashboard.dailyLog st0) st0 ls
  | inr None =>
      (Dashboard.set_error
         (Some ("Product not found for barcode " ++ barcode
                ++ ". Please try logging it manually.")%string) st0, ls)
  | inl message =>
      (Dashboard.set_error
         (Some (if JS.truthy_str message then message
                else "An unknown error occurred while looking up the barcode."%string))
         st0, ls)
  end.

End Forms.

(** ** The barcode service (geminiService.ts, [lookupBarcode]) *)

Module Barcode.

(** The entries of [product.nutriments] the function reads; [None] is an
    absent entry. *)
Record Nutriments : Type := mkNutriments {
  energy_kcal_serving : option Q;
  energy_kcal_100g : option Q;
  proteins_serving : option Q;
  proteins_100g : option Q;
  carbohydrates_serving : option Q;
  carbohydrates_100g : option Q;
  fat_serving : option Q;
  fat_100g : option Q;
  sugars_serving : option Q;
  sugars_100g : option Q
}.

Record Product : Type := mkProduct {
  product_name : option string;
  serving_size : option string;
  nutriments : option Nutriments
}.

(** The response of the product database: [ok] of the HTTP response, and
    [status] and [product] of its JSON body. *)
Record Response : Type := mkResponse {
  ok : bool;
  status : option Q;
  product : option Product
}.

(** [a || b || 0] *)
Definition first_truthy (a b : option Q) : Q :=
  match a with
  | Some x => if JS.truthy_num x then x else JS.or_zero b
  | None => JS.or_zero b
  end.

(** [Math.round(x * 10) / 10] *)
Definition round_tenth (x : Q) : Q := inject_Z (JS.Math_round (x * 10)) / 10.

Definition connectError : string :=
  "Could not connect to the food database. Please check your internet connection.".

(** [lookupBarcode] after the request: [None] is a [fetch] that failed.
    The result is [inl msg] for the error thrown, [inr None] for [null]. *)
Definition lookupBarcode (response : option Response)
    : string + option MacroData :=
  match response with
  | None => inl connectError
  | Some r =>
      if negb (ok r) then inr None
      else
        if match status r with Some s => Qeq_bool s 0 | None => false end
        then inr None
        else
          match product r with
          | None => inr None
          | Some p =>
              match nutriments p with
              | None => inl connectError
              | Some n =>
                  let servingSizeStr :=
                    match serving_size p with
                    | Some s => if JS.truthy_str s then s else "100g"%string
                    | None => "100g"%string
                    end in
                  let calories :=
                    first_truthy (energy_kcal_serving n) (energy_kcal_100g n) in
                  let protein :=
                    first_truthy (proteins_serving n) (proteins_100g n) in
                  let carbohydrates :=
                    first_truthy (carbohydrates_serving n) (carbohydrates_100g n) in
                  let fat := first_truthy (fat_serving n) (fat_100g n) in
                  let sugar := first_truthy (sugars_serving n) (sugars_100g n) in
                  match product_name p with
                  | Some name =>
                      if negb (JS.truthy_str name) || Qeq_bool calories 0
                      then inr None
                      else
                        inr (Some
                          {| foodName :=
                               (name ++ " (" ++ servingSizeStr ++ ")")%string;
                             Types.calories := inject_Z (JS.Math_round calories);
                             Types.protein := round_tenth protein;
                             Types.carbohydrates := round_tenth carbohydrates;
                             Types.fat := round_tenth fat;
                             sugar := round_tenth sugar |})
                  | None => inr None
                  end
              end
          end
  end.

End Barcode.


(** ** The Progress view (Progress.tsx): the week, the macro shares, the
    streak *)

Module ProgressView.



(** One bar of the chart. *)
Record DayData : Type := mkDayData {
  name : string;
  calories : Q;
  protein : Q;
  carbs : Q;
  fat : Q
}.

Section View.

(** The zone offset, the clock at render time, the parsed
    ['nutrisnap_dailyLogs'] (the empty object when absent), and the weekday
    name [toLocaleDateString] gives for a date. *)
Variable tza : Z.
Variable now : Z.
Variable historicalLogs : gmap string (list DailyLogEntry).
Variable weekday : Z -> string.






End View.

(** The accumulator of [macroDistribution] and its result: no slice when
    the three sums add up to zero. *)
Definition macroTotals (days : list DayData) : Q * Q * Q :=
  fold_left
    (fun acc day =>
       (acc.1.1 + protein day, acc.1.2 + carbs day, acc.2 + fat day))
    days (0, 0, 0).

Definition macroDistribution (days : list DayData) : list (string * Q) :=
  let '(p, c, f) := macroTotals days in
  if Qeq_bool (p + c + f) 0 then []
  else [("Protein"%string, p); ("Carbs"%string, c); ("Fat"%string, f)].

End ProgressView.

(** ** Profile (Profile.tsx): saving the weight, imperial height *)

Module ProfileEdit.

Record WeightEntry : Type := mkWeightEntry {
  date : string;
  weight : Q
}.

(** The fields of [UserProfile] that [handleSave] reads or writes; the
    others are copied as they are. *)
Record Profile : Type := mkProfile {
  currentWeight : option Q;
  weightHistory : option (list WeightEntry)
}.

(** [a !== b] on optional numbers. *)
Definition differs (a b : option Q) : bool :=
  match a, b with
  | Some x, Some y => negb (Qeq_bool x y)
  | None, None => false
  | _, _ => true
  end.

(** The profile [handleSave] passes to [onUpdateProfile]. *)
Definition handleSave (now : Z) (formData userProfile : Profile) : Profile :=
  match currentWeight formData with
  | Some w =>
      if differs (Some w) (currentWeight userProfile) then
        let newHistoryEntry :=
          mkWeightEntry (JS.slice0 10 (JS.toISOString now)) w in
        let existingHistory := default [] (weightHistory formData) in
        let filteredHistory :=
          filter (fun entry => negb (date entry =? date newHistoryEntry)%string)
            existingHistory in
        mkProfile (Some w) (Some (filteredHistory ++ [newHistoryEntry]))
      else formData
  | None => formData
  end.




Section Inputs.

(** [parseFloat]; [None] is NaN. *)
Variable parseFloat : string -> option Q.


(** The weight [handleWeightInputChange] stores for the text of a weight
    field, [lbs] telling whether the unit is pounds. *)
Definition weightInput (lbs : bool) (value : string) : option Q :=
  if (value =? "")%string then None
  else
    match parseFloat value with
    | None => None
    | Some numericValue =>
        Some (if lbs then Profile.lbsToKg numericValue else numericValue)
    end.

End Inputs.

End ProfileEdit.


(** ** Onboarding (Onboarding.tsx): the steps of the form *)

Module OnboardingForm.

(** [formData]: the fields the estimator reads, and the others the steps
    test or [handleFinish] passes on. *)
Record Form : Type := mkForm {
  biometrics : Onboarding.FormData;
  goalWeight : option Q;
  dietaryPreferences : option string;
  calorieGoal : option Q
}.

(** [!!(x && x > 0)] on an optional number. *)
Definition positive (x : option Q) : bool :=
  match x with
  | Some v => JS.truthy_num v && JS.gt v 0
  | None => false
  end.

Definition isStep2Valid (f : Form) : bool :=
  positive (Onboarding.age (biometrics f))
  && positive (Onboarding.height (biometrics f))
  && positive (Onboarding.currentWeight (biometrics f))
  && positive (goalWeight f).

(** Truthiness of [activityLevel && fitnessGoal && dietaryPreferences]. *)
Definition isStep3Valid (f : Form) : bool :=
  match Onboarding.activityLevel (biometrics f),
        Onboarding.fitnessGoal (biometrics f), dietaryPreferences f with
  | Some _, Some _, Some d => JS.truthy_str d
  | _, _, _ => false
  end.

(** The [calorieGoal] that [handleFinish] passes to [onComplete]:
    [formData.calorieGoal || calculatedCalorieGoal]. *)
Definition finishCalorieGoal (f : Form) : Q :=
  match calorieGoal f with
  | Some g =>
      if JS.truthy_num g then g
      else inject_Z (Onboarding.calculatedCalorieGoal (biometrics f))
  | None => inject_Z (Onboarding.calculatedCalorieGoal (biometrics f))
  end.

End OnboardingForm.

(** ** The community feed (CommunityFeed.tsx) *)

Module Community.

Record Comment : Type := mkComment {
  c_id : Z;
  c_author : string;
  c_avatarUrl : string;
  c_content : string;
  c_timestamp : string
}.

Record CommunityPost : Type := mkPost {
  id : Z;
  author : string;
  avatarUrl : string;
  content : string;
  imageUrl : option string;
  timestamp : string;
  likes : Q;
  comments : list Comment;
  isLiked : option bool
}.

(** The state of the component; [userProfile] is the prop, reduced to the
    name and the avatar the handlers read. *)
Record State : Type := mkState {
  posts : list CommunityPost;
  newPostContent : string;
  openCommentsId : option Z;
  commentInputs : gmap Z string
}.







(** [handleDeletePost]; [confirm] is the answer to [window.confirm]. *)
Definition handleDeletePost (confirm : bool) (postId : Z) (st : State) : State :=
  if confirm then
    mkState (filter (fun p => negb (id p =? postId)%Z) (posts st))
      (newPostContent st) (openCommentsId st) (commentInputs st)
  else st.

End Community.

(** ** The recipe finder (RecipeFinder.tsx): favourites, custom recipes *)

Module Recipes.

Record Recipe : Type := mkRecipe {
  id : option string;
  isCustom : option bool;
  title : string;
  description : string;
  ingredients : list string;
  instructions : list string;
  url : option string;
  imageUrl : string;
  imageSearchQuery : option string
}.

(** [a || b] on optional strings: [a] when it is truthy, otherwise [b]. *)
Definition or_str (a b : option string) : option string :=
  match a with
  | Some s => if JS.truthy_str s then a else b
  | None => b
  end.

(** Truthiness of an optional string. *)
Definition truthy_opt (a : option string) : bool :=
  match a with
  | Some s => JS.truthy_str s
  | None => false
  end.

(** [recipe.url || recipe.id] *)
Definition key (r : Recipe) : option string := or_str (url r) (id r).

Definition isFavorite (favorites : list Recipe) (recipe : option Recipe) : bool :=
  match recipe with
  | None => false
  | Some r =>
      if truthy_opt (key r) then
        existsb (fun fav => bool_decide (key fav = key r)) favorites
      else false
  end.

Record State : Type := mkState {
  favorites : list Recipe;
  favoritingId : option string;
  customRecipes : list Recipe
}.

(** [s.startsWith(p)] *)
Definition startsWith (p s : string) : bool := String.prefix p s.

(** [toggleFavorite(recipe)]; [generated] is what [generateRecipeImage]
    answers when it is called: [Some] the new image, [None] when it throws.
    No other handler runs while the image is pending. *)
Definition toggleFavorite (recipe : Recipe) (generated : option string)
    (st : State) : State :=
  if negb (truthy_opt (key recipe)) then st
  else if isFavorite (favorites st) (Some recipe) then
    mkState
      (filter (fun fav => negb (bool_decide (key fav = key recipe)))
         (favorites st))
      (favoritingId st) (customRecipes st)
  else if truthy_opt (favoritingId st) then st
  else
    let finalImageUrl :=
      if startsWith "https://source.unsplash.com" (imageUrl recipe)
         && truthy_opt (imageSearchQuery recipe)
      then generated else Some (imageUrl recipe) in
    match finalImageUrl with
    | Some img =>
        let newFavorite :=
          mkRecipe (id recipe) (isCustom recipe) (title recipe)
            (description recipe) (ingredients recipe) (instructions recipe)
            (url recipe) img (imageSearchQuery recipe) in
        mkState (favorites st ++ [newFavorite]) None (customRecipes st)
    | None => mkState (favorites st) None (customRecipes st)
    end.





Definition handleDeleteCustomRecipe (confirm : bool) (rid : string) (st : State)
    : State :=
  if confirm then
    mkState (favorites st) (favoritingId st)
      (filter (fun r => negb (bool_decide (id r = Some rid))) (customRecipes st))
  else st.

End Recipes.


(** ** App (App.tsx): the theme, saving the profile, finishing onboarding *)

Module AppShell.

(** [useState(() => localStorage.getItem('nutrisnap_theme') || 'light')] *)
Definition initialTheme (ls : gmap string string) : string :=
  match ls !! "nutrisnap_theme"%string with
  | Some t => if JS.truthy_str t then t else "light"%string
  | None => "light"%string
  end.

(** [toggleTheme]: the new theme and the storage. *)
Definition toggleTheme (theme : string) (ls : gmap string string)
    : string * gmap string string :=
  let newTheme := if (theme =? "light")%string then "dark"%string
                  else "light"%string in
  (newTheme, <["nutrisnap_theme"%string := newTheme]> ls).

(** The component state with the active view. *)
Inductive View : Type :=
| VHome | VDashboard | VRecipes | VCommunity | VProfile | VProgress.

Record State : Type := mkState {
  app : App.State;
  activeView : View
}.

Section Store.

(** [JSON.stringify] on a profile object. *)
Variable JSON_stringify : gmap string App.JSON -> string.

Definition updateProfile (profile : gmap string App.JSON)
    (st : State) (ls : gmap string string) : State * gmap string string :=
  (mkState (App.mkState (Some profile) (App.isOnboardingComplete (app st)))
     (activeView st),
   <["nutrisnap_userProfile"%string := JSON_stringify profile]> ls).

Definition handleOnboardingComplete (profile : gmap string App.JSON)
    (st : State) (ls : gmap string string) : State * gmap string string :=
  let '(st1, ls1) := updateProfile profile st ls in
  (mkState (App.mkState (App.userProfile (app st1)) true) VDashboard,
   <["nutrisnap_onboardingComplete"%string := "true"%string]> ls1).

End Store.

End AppShell.


(** ** Further predicates used in the statements *)





(** * Properties *)

(** ** Totals *)

#[global] Instance Totals_eq_equiv : Equivalence Totals_eq.
Proof.
  split.
  - intros a. repeat split; reflexivity.
  - intros a b (H1 & H2 & H3 & H4). repeat split; symmetry; assumption.
  - intros a b c (H1 & H2 & H3 & H4) (K1 & K2 & K3 & K4).
    repeat split; etransitivity; eassumption.
Qed.

#[global] Instance Totals_plus_proper :
  Proper (Totals_eq ==> Totals_eq ==> Totals_eq) Totals_plus.
Proof.
  intros a a' (H1 & H2 & H3 & H4) b b' (K1 & K2 & K3 & K4).
  repeat split; simpl; (rewrite ?H1, ?H2, ?H3, ?H4, ?K1, ?K2, ?K3, ?K4; reflexivity).
Qed.

Lemma sumQ_app (l1 l2 : list Q) :
  Reference.sumQ (l1 ++ l2) == Reference.sumQ l1 + Reference.sumQ l2.
Proof.
  induction l1 as [|x l1 IH]; simpl.
  - ring.
  - rewrite IH. ring.
Qed.

Lemma dailyTotals_nil : Reference.dailyTotals [] = Totals.zero.
Proof. reflexivity. Qed.

Lemma dailyTotals_app (l1 l2 : list DailyLogEntry) :
  Totals_eq (Reference.dailyTotals (l1 ++ l2))
    (Totals_plus (Reference.dailyTotals l1) (Reference.dailyTotals l2)).
Proof.
  unfold Reference.dailyTotals, Reference.mealItems, Reference.burned,
    Totals_eq, Totals_plus; simpl.
  rewrite !bind_app, !fmap_app, !sumQ_app.
  repeat split; ring.
Qed.

(** The inner [forEach] adds the sums of the items to the accumulator. *)
Lemma fold_add_item (items : list MacroData) (acc : Totals.Totals) :
  Totals_eq (fold_left Totals.add_item items acc)
    (Totals_plus acc
       (Reference.dailyTotals [LoggedMealItem "" "" items])).
Proof.
  revert acc. induction items as [|it items IH]; intros acc.
  - unfold Totals_eq, Totals_plus; csimpl. repeat split; ring.
  - simpl fold_left. rewrite IH.
    unfold Totals_eq, Totals_plus, Reference.dailyTotals, Reference.mealItems,
      Reference.burned in *; csimpl.
    rewrite !app_nil_r. repeat split; csimpl; ring.
Qed.

Lemma reducer_spec (acc : Totals.Totals) (e : DailyLogEntry) :
  Totals_eq (Totals.reducer acc e)
    (Totals_plus acc (Reference.dailyTotals [e])).
Proof.
  destruct e as [i ts items | i ts n c]; simpl.
  - rewrite fold_add_item. reflexivity.
  - unfold Totals_eq, Totals_plus; simpl. repeat split; ring.
Qed.

#[global] Instance reducer_proper (e : DailyLogEntry) :
  Proper (Totals_eq ==> Totals_eq) (fun acc => Totals.reducer acc e).
Proof.
  intros a b H. rewrite !reducer_spec, H. reflexivity.
Qed.

Lemma fold_reducer (log : list DailyLogEntry) (acc : Totals.Totals) :
  Totals_eq (fold_left Totals.reducer log acc)
    (Totals_plus acc (Reference.dailyTotals log)).
Proof.
  revert acc. induction log as [|e log IH]; intros acc.
  - unfold Totals_eq, Totals_plus; simpl. repeat split; ring.
  - simpl fold_left. rewrite IH, reducer_spec.
    change (e :: log) with ([e] ++ log). rewrite (dailyTotals_app [e] log).
    unfold Totals_eq, Totals_plus; simpl. repeat split; ring.
Qed.

Lemma Totals_plus_zero_l (t : Totals.Totals) :
  Totals_eq (Totals_plus Totals.zero t) t.
Proof. unfold Totals_eq, Totals_plus; simpl. repeat split; ring. Qed.

Lemma computeTotals_dailyTotals (log : list DailyLogEntry) :
  Totals_eq (Totals.computeTotals log) (Reference.dailyTotals log).
Proof.
  unfold Totals.computeTotals. rewrite fold_reducer. apply Totals_plus_zero_l.
Qed.

Lemma progress_add_items (items : list MacroData) p t :
  same_totals p t ->
  same_totals (fold_left Progress.add_item items p)
    (fold_left Totals.add_item items t).
Proof.
  revert p t. induction items as [|it items IH]; intros p t H; [exact H|].
  simpl. apply IH. destruct H as (H1 & H2 & H3 & H4).
  unfold same_totals; simpl. rewrite H1, H2, H3, H4. repeat split.
Qed.

Lemma progress_reducer (log : list DailyLogEntry) p t :
  same_totals p t ->
  same_totals (fold_left Progress.reducer log p)
    (fold_left Totals.reducer log t).
Proof.
  revert p t. induction log as [|e log IH]; intros p t H; [exact H|].
  simpl. apply IH. destruct e as [i ts items | i ts n c]; simpl.
  - apply progress_add_items, H.
  - destruct H as (H1 & H2 & H3 & H4).
    unfold same_totals; simpl. rewrite H1, H2, H3, H4. repeat split.
Qed.

(** C1. For every day log [computeTotals] gives the reference totals: the
    sums of the calories, protein, carbohydrates and fat of the items of the
    meals, with the calories burned by the exercises subtracted from the
    calories only and nothing clamped; the per-day rollup of the Progress
    view gives the same four numbers. *)
Theorem computeTotals_is_reference (log : list DailyLogEntry) :
  Totals_eq (Totals.computeTotals log) (Reference.dailyTotals log) /\
  same_totals (Progress.dayTotals log) (Totals.computeTotals log).
Proof.
  split.
  - apply computeTotals_dailyTotals.
  - apply progress_reducer. repeat split.
Qed.

(** The scenario of the specification: one meal of two items and one
    exercise; and a day of exercise only, whose net calories are negative. *)
Example computeTotals_scenario :
  let meal := LoggedMealItem "meal_1" "12:00"
                [mkMacroData "a" 300 20 30 10 5; mkMacroData "b" 200 5 40 2 1] in
  let run := LoggedExerciseItem "ex_1_0" "18:00" "Running" 150 in
  Totals.computeTotals (Reference.appendEntries [run] (Reference.appendEntries [meal] []))
    = Totals.mkTotals 350 25 70 12 /\
  Totals.computeTotals [run] = Totals.mkTotals (-150) 0 0 0.
Proof. split; reflexivity. Qed.

(** C10. [computeTotals] is additive over concatenation, and therefore
    equal on any two logs that are permutations of each other. *)
Theorem computeTotals_additive_permutation :
  (forall l1 l2 : list DailyLogEntry,
     Totals_eq (Totals.computeTotals (l1 ++ l2))
       (Totals_plus (Totals.computeTotals l1) (Totals.computeTotals l2))) /\
  (forall l1 l2 : list DailyLogEntry,
     l1 ≡ₚ l2 ->
     Totals_eq (Totals.computeTotals l1) (Totals.computeTotals l2)).
Proof.
  assert (Hadd : forall l1 l2 : list DailyLogEntry,
     Totals_eq (Totals.computeTotals (l1 ++ l2))
       (Totals_plus (Totals.computeTotals l1) (Totals.computeTotals l2))).
  { intros l1 l2. rewrite !computeTotals_dailyTotals. apply dailyTotals_app. }
  split; [exact Hadd|].
  intros l1 l2 Hp. induction Hp as [|e l l' _ IH|e1 e2 l|l l' l'' _ IH1 _ IH2].
  - reflexivity.
  - change (e :: l) with ([e] ++ l). change (e :: l') with ([e] ++ l').
    rewrite !Hadd, IH. reflexivity.
  - change (e2 :: e1 :: l) with ([e2] ++ [e1] ++ l).
    change (e1 :: e2 :: l) with ([e1] ++ [e2] ++ l).
    rewrite !Hadd. unfold Totals_eq, Totals_plus; simpl. repeat split; ring.
  - etransitivity; eassumption.
Qed.

Lemma computeTotals_additive_permutation_witness :
  let meal := LoggedMealItem "meal_1" "12:00" [mkMacroData "a" 300 20 30 10 5] in
  let run := LoggedExerciseItem "ex_1_0" "18:00" "Running" 150 in
  [meal; run] ≡ₚ [run; meal] /\
  Totals_eq (Totals.computeTotals [meal; run]) (Totals.computeTotals [run; meal]).
Proof.
  intros meal run. split.
  - apply perm_swap.
  - apply (proj2 computeTotals_additive_permutation). apply perm_swap.
Defined.

(** ** Deleting one item of a meal *)

Import Dashboard.

Lemma filter_index_all {A : Type} (p : nat -> bool) (k : nat) (l : list A) :
  (forall j, (k <= j)%nat -> p j = true) -> filter_index p k l = l.
Proof.
  revert k. induction l as [|x l IH]; intros k H; simpl; [reflexivity|].
  rewrite (H k) by lia. f_equal. apply IH. intros j Hj. apply H. lia.
Qed.

(** Filtering on [index !== itemIndex] deletes the element at that position. *)
Lemma filter_index_delete {A : Type} (l : list A) (k n : nat) :
  filter_index (index_differs (Z.of_nat (k + n))) k l = delete n l.
Proof.
  revert k n. induction l as [|x l IH]; intros k n; simpl.
  - destruct n; reflexivity.
  - destruct n as [|n]; unfold index_differs at 1.
    + replace (Z.of_nat k =? Z.of_nat (k + 0))%Z with true
        by (symmetry; apply Z.eqb_eq; lia).
      simpl. apply filter_index_all. intros j Hj. unfold index_differs.
      apply negb_true_iff, Z.eqb_neq. lia.
    + replace (Z.of_nat k =? Z.of_nat (k + S n))%Z with false
        by (symmetry; apply Z.eqb_neq; lia).
      simpl. f_equal. replace (k + S n)%nat with (S k + n)%nat by lia.
      apply IH.
Qed.

Lemma filter_index_item (itemIndex : Z) {A : Type} (l : list A) :
  (0 <= itemIndex)%Z ->
  filter_index (index_differs itemIndex) 0 l = delete (Z.to_nat itemIndex) l.
Proof.
  intros H. rewrite <- (filter_index_delete l 0 (Z.to_nat itemIndex)).
  simpl. rewrite Z2Nat.id by exact H. reflexivity.
Qed.

Lemma delete_beyond {A : Type} (l : list A) (n : nat) :
  (length l <= n)%nat -> delete n l = l.
Proof.
  revert n. induction l as [|x l IH]; intros [|n] H; simpl in *;
    try reflexivity; try lia.
  f_equal. apply IH. lia.
Qed.

Lemma filter_index_out_of_range (itemIndex : Z) {A : Type} (l : list A) :
  (itemIndex < 0 \/ Z.of_nat (length l) <= itemIndex)%Z ->
  filter_index (index_differs itemIndex) 0 l = l.
Proof.
  intros [H|H].
  - apply filter_index_all. intros j _. unfold index_differs.
    apply negb_true_iff, Z.eqb_neq. lia.
  - rewrite filter_index_item by lia. apply delete_beyond. lia.
Qed.

Lemma dropItem_other_id entryId itemIndex (e : DailyLogEntry) :
  entry_id e <> entryId -> dropItem entryId itemIndex e = e.
Proof.
  intros H. destruct e as [i ts items | i ts n c]; simpl in *; [|reflexivity].
  apply String.eqb_neq in H. rewrite H. reflexivity.
Qed.

Lemma dropItem_others entryId itemIndex (l : list DailyLogEntry) :
  Forall (fun e => entry_id e <> entryId) l ->
  dropItem entryId itemIndex <$> l = l.
Proof.
  induction 1 as [|e l He _ IH]; csimpl; [reflexivity|].
  rewrite IH, dropItem_other_id by exact He. reflexivity.
Qed.

Lemma filter_keepEntry_id (l : list DailyLogEntry) :
  Forall (fun e => keepEntry e = true) l -> filter keepEntry l = l.
Proof.
  induction 1 as [|e l He _ IH]; [reflexivity|].
  rewrite filter_cons_True by (rewrite He; exact I). rewrite IH. reflexivity.
Qed.

Lemma keepEntry_meal i ts (items : list MacroData) :
  filter keepEntry [LoggedMealItem i ts items] =
  match items with [] => [] | _ => [LoggedMealItem i ts items] end.
Proof. destruct items; reflexivity. Qed.

(** A meal without items adds nothing to the reference totals. *)
Lemma dailyTotals_filter_keepEntry (l : list DailyLogEntry) :
  Reference.dailyTotals (filter keepEntry l) = Reference.dailyTotals l.
Proof.
  assert (Hm : Reference.mealItems (filter keepEntry l) = Reference.mealItems l
               /\ Reference.burned (filter keepEntry l) = Reference.burned l).
  { unfold Reference.mealItems, Reference.burned.
    induction l as [|e l [IH1 IH2]]; [split; reflexivity|].
    destruct e as [i ts [|it items] | i ts n c].
    - rewrite filter_cons_False by (simpl; tauto). csimpl. split; assumption.
    - rewrite filter_cons_True by exact I. csimpl. rewrite IH1, IH2. split; reflexivity.
    - rewrite filter_cons_True by exact I. csimpl. rewrite IH1, IH2. split; reflexivity. }
  destruct Hm as [H1 H2]. unfold Reference.dailyTotals. rewrite H1, H2. reflexivity.
Qed.

#[global] Instance add_item_proper :
  Proper (Totals_eq ==> eq ==> Totals_eq) Totals.add_item.
Proof.
  intros a b (H1 & H2 & H3 & H4) it ? <-. unfold Totals_eq; simpl.
  rewrite H1, H2, H3, H4. repeat split; reflexivity.
Qed.

(** The totals of a meal are those of the meal without one item, plus that
    item. *)
Lemma dailyTotals_meal_delete i ts (items : list MacroData) (n : nat) it :
  items !! n = Some it ->
  Totals_eq (Reference.dailyTotals [LoggedMealItem i ts items])
    (Totals.add_item (Reference.dailyTotals [LoggedMealItem i ts (delete n items)]) it).
Proof.
  revert n. induction items as [|x items IH]; intros n H; [discriminate|].
  destruct n as [|n].
  - injection H as ->. unfold Totals_eq, Reference.dailyTotals,
      Reference.mealItems, Reference.burned; csimpl.
    rewrite !app_nil_r. csimpl. repeat split; ring.
  - specialize (IH n H). revert IH.
    unfold Totals_eq, Reference.dailyTotals, Reference.mealItems,
      Reference.burned; csimpl. rewrite !app_nil_r. csimpl.
    intros (H1 & H2 & H3 & H4). rewrite H2, H3, H4.
    repeat split; try ring.
    transitivity (calories x + (Reference.sumQ (calories <$> items) - 0)); [ring|].
    rewrite H1. ring.
Qed.

Lemma deleteMealItem_unfold entryId idx l1 ts items l2 :
  (0 <= idx)%Z ->
  Forall (fun e => entry_id e <> entryId) (l1 ++ l2) ->
  deleteMealItem entryId idx (l1 ++ LoggedMealItem entryId ts items :: l2) =
  filter keepEntry l1
  ++ filter keepEntry [LoggedMealItem entryId ts (delete (Z.to_nat idx) items)]
  ++ filter keepEntry l2.
Proof.
  intros Hidx Hids. apply Forall_app in Hids as [H1 H2].
  unfold deleteMealItem, deleteFromLog.
  rewrite fmap_app, fmap_cons, !dropItem_others by assumption.
  simpl dropItem. rewrite String.eqb_refl, filter_index_item by exact Hidx.
  rewrite filter_app.
  change (?m :: l2) with ([m] ++ l2) at 1. rewrite filter_app. reflexivity.
Qed.

Lemma deleteMealItem_totals entryId idx l1 ts items l2 it :
  (0 <= idx)%Z ->
  items !! Z.to_nat idx = Some it ->
  Forall (fun e => entry_id e <> entryId) (l1 ++ l2) ->
  Totals_eq
    (Totals.add_item
       (Totals.computeTotals
          (deleteMealItem entryId idx (l1 ++ LoggedMealItem entryId ts items :: l2)))
       it)
    (Totals.computeTotals (l1 ++ LoggedMealItem entryId ts items :: l2)).
Proof.
  intros Hidx Hit Hids.
  rewrite deleteMealItem_unfold by assumption.
  rewrite <- !filter_app.
  rewrite !computeTotals_dailyTotals, dailyTotals_filter_keepEntry.
  change (?m :: l2) with ([m] ++ l2).
  pose proof (dailyTotals_app l1
    ([LoggedMealItem entryId ts (delete (Z.to_nat idx) items)] ++ l2)) as A1.
  pose proof (dailyTotals_app
    [LoggedMealItem entryId ts (delete (Z.to_nat idx) items)] l2) as A2.
  pose proof (dailyTotals_app l1 ([LoggedMealItem entryId ts items] ++ l2)) as B1.
  pose proof (dailyTotals_app [LoggedMealItem entryId ts items] l2) as B2.
  pose proof (dailyTotals_meal_delete entryId ts items _ it Hit) as M.
  rewrite A1, A2, B1, B2, M.
  unfold Totals_eq, Totals_plus; simpl. repeat split; ring.
Qed.

Lemma dropItem_out_of_range entryId idx (log : list DailyLogEntry) :
  (forall ts items, LoggedMealItem entryId ts items ∈ log ->
     (idx < 0 \/ Z.of_nat (length items) <= idx)%Z) ->
  dropItem entryId idx <$> log = log.
Proof.
  induction log as [|e log IH]; intros H; csimpl; [reflexivity|].
  rewrite IH by (intros ts items Hin; apply (H ts items); right; exact Hin).
  f_equal. destruct e as [i ts items | i ts n c]; simpl; [|reflexivity].
  destruct (String.eqb_spec i entryId) as [->|]; [|reflexivity].
  rewrite filter_index_out_of_range; [reflexivity|].
  apply (H ts). left.
Qed.

(** C2, as amended. (1) After [deleteMealItem] no meal of the log is empty,
    and the result is the log with the item at the index deleted from every
    meal of the given id, less the meals without items.
    (2) With a valid index into the one meal that has the given id, exactly
    the item at that index is removed from that meal, the meal is dropped if
    that was its only item, and the totals afterwards are the totals before
    less that item; the other entries stay, but for the meals that had no
    items, which are dropped as well. (3) With an index that is out of range
    for the meals of that id, the result is the log without its empty meals:
    the log itself when it holds no empty meal. *)
Theorem deleteMealItem_spec :
  (forall entryId idx (log : list DailyLogEntry),
     Forall (fun e => keepEntry e = true) (deleteMealItem entryId idx log) /\
     ((0 <= idx)%Z ->
      deleteMealItem entryId idx log =
      filter keepEntry
        ((fun e =>
            match e with
            | LoggedMealItem i ts items =>
                if (i =? entryId)%string
                then LoggedMealItem i ts (delete (Z.to_nat idx) items)
                else e
            | LoggedExerciseItem _ _ _ _ => e
            end) <$> log))) /\
  (forall entryId idx l1 ts items l2 it,
     (0 <= idx)%Z ->
     items !! Z.to_nat idx = Some it ->
     Forall (fun e => entry_id e <> entryId) (l1 ++ l2) ->
     let log := l1 ++ LoggedMealItem entryId ts items :: l2 in
     let rest := delete (Z.to_nat idx) items in
     deleteMealItem entryId idx log =
       filter keepEntry l1
       ++ match rest with [] => [] | _ => [LoggedMealItem entryId ts rest] end
       ++ filter keepEntry l2 /\
     Totals_eq
       (Totals.add_item (Totals.computeTotals (deleteMealItem entryId idx log)) it)
       (Totals.computeTotals log)) /\
  (forall entryId idx (log : list DailyLogEntry),
     (forall ts items, LoggedMealItem entryId ts items ∈ log ->
        (idx < 0 \/ Z.of_nat (length items) <= idx)%Z) ->
     deleteMealItem entryId idx log = filter keepEntry log /\
     (Forall (fun e => keepEntry e = true) log ->
      deleteMealItem entryId idx log = log)).
Proof.
  split; [|split].
  - intros entryId idx log. split.
    + apply Forall_forall. intros e He.
      unfold deleteMealItem, deleteFromLog in He.
      apply list_elem_of_filter in He as [He _].
      destruct (keepEntry e); [reflexivity|destruct He].
    + intros Hidx. unfold deleteMealItem, deleteFromLog. f_equal.
      apply list_fmap_ext. intros _ [i ts items | i ts n c] _; [|reflexivity].
      simpl. rewrite filter_index_item by exact Hidx. reflexivity.
  - intros entryId idx l1 ts items l2 it Hidx Hit Hids log rest. split.
    + unfold log. rewrite deleteMealItem_unfold by assumption.
      rewrite keepEntry_meal. reflexivity.
    + apply deleteMealItem_totals; assumption.
  - intros entryId idx log H.
    assert (E : deleteMealItem entryId idx log = filter keepEntry log).
    { unfold deleteMealItem, deleteFromLog.
      rewrite dropItem_out_of_range by exact H. reflexivity. }
    split; [exact E|]. intros Hk. rewrite E. apply filter_keepEntry_id, Hk.
Qed.

Lemma deleteMealItem_spec_witness :
  let apple := mkMacroData "apple" 95 0 25 0 19 in
  let bread := mkMacroData "bread" 80 3 15 1 1 in
  let run := LoggedExerciseItem "ex_1_0" "07:00" "Running" 150 in
  let log := [run] ++ LoggedMealItem "meal_2" "12:00" [apple; bread] :: [] in
  deleteMealItem "meal_2" 0 log = [run; LoggedMealItem "meal_2" "12:00" [bread]] /\
  Totals_eq (Totals.add_item (Totals.computeTotals (deleteMealItem "meal_2" 0 log)) apple)
    (Totals.computeTotals log) /\
  deleteMealItem "meal_2" 7 log = log.
Proof.
  intros apple bread run log.
  destruct deleteMealItem_spec as (_ & Hvalid & Hout).
  assert (Hids : Forall (fun e => entry_id e <> "meal_2"%string) ([run] ++ [])).
  { repeat constructor. discriminate. }
  destruct (Hvalid "meal_2"%string 0%Z [run] "12:00"%string [apple; bread] []
              apple ltac:(lia) eq_refl Hids) as [E T].
  split; [exact E|]. split; [exact T|].
  apply (Hout "meal_2"%string 7%Z log).
  - intros ts items Hin. right.
    apply list_elem_of_In in Hin. simpl in Hin.
    destruct Hin as [Hin|[Hin|[]]]; [discriminate|].
    injection Hin as <- <-. simpl. lia.
  - repeat constructor.
Defined.

(** C2 as the specification states it fails: an out-of-range index on a
    meal of the log is no no-op when the log holds a meal without items. *)
Lemma deleteMealItem_out_of_range_counterexample :
  ~ (forall entryId idx (log : list DailyLogEntry) ts items,
       LoggedMealItem entryId ts items ∈ log ->
       (idx < 0 \/ Z.of_nat (length items) <= idx)%Z ->
       deleteMealItem entryId idx log = log).
Proof.
  intros H.
  specialize (H "meal_2"%string 5%Z
    [LoggedMealItem "meal_2" "12:00" [mkMacroData "apple" 95 0 25 0 19];
     LoggedMealItem "meal_1" "08:00" []]
    "12:00"%string [mkMacroData "apple" 95 0 25 0 19]).
  assert (Hin : LoggedMealItem "meal_2" "12:00" [mkMacroData "apple" 95 0 25 0 19]
                ∈ [LoggedMealItem "meal_2" "12:00" [mkMacroData "apple" 95 0 25 0 19];
                   LoggedMealItem "meal_1" "08:00" []]) by (left).
  specialize (H Hin ltac:(right; simpl; lia)).
  vm_compute in H. discriminate H.
Qed.

(** A meal without items enters the log when the analysis of a photo
    returns no item. *)
Example empty_meal_reachable (st : State) (ls : Storage) :
  dailyLog (handleAnalyzeClick 1 "08:00" (inr []) st ls).1
  = LoggedMealItem "meal_1" "08:00" [] :: dailyLog st.
Proof. reflexivity. Qed.

(** ** The calorie-goal estimator *)

Import Onboarding.

Lemma truthy_num_false (v : Q) : v == 0 -> JS.truthy_num v = false.
Proof.
  intros H. unfold JS.truthy_num. apply Qeq_bool_iff in H. rewrite H. reflexivity.
Qed.

Lemma truthy_num_true (v : Q) : ~ v == 0 -> JS.truthy_num v = true.
Proof.
  intros H. unfold JS.truthy_num. destruct (Qeq_bool v 0) eqn:E; [|reflexivity].
  apply Qeq_bool_iff in E. contradiction.
Qed.

(** [Math.round] gives an integer nearest to its argument. *)
Lemma Math_round_nearest (x : Q) :
  x - (1 # 2) < inject_Z (JS.Math_round x) /\
  inject_Z (JS.Math_round x) <= x + (1 # 2).
Proof.
  unfold JS.Math_round. split.
  - pose proof (Qlt_floor (x + (1 # 2))) as H.
    rewrite inject_Z_plus in H. change (inject_Z 1) with 1 in H. lra.
  - apply Qfloor_le.
Qed.

Lemma Math_round_comp (x y : Q) : x == y -> JS.Math_round x = JS.Math_round y.
Proof.
  intros H. unfold JS.Math_round. apply Qfloor_comp. rewrite H. reflexivity.
Qed.

Lemma tables_agree (a : ActivityLevel) (g : FitnessGoal) :
  activityMultipliers a == Reference.activityFactor a /\
  goalAdjustments g == Reference.goalAdjustment g.
Proof. split; [destruct a|destruct g]; reflexivity. Qed.

(** C3, as amended. The estimator returns 0 when any of the five inputs is
    absent or when age, height or weight is zero; on every other input it
    returns an integer nearest to (10 weight + 6.25 height - 5 age + 5) times
    the activity factor plus the goal adjustment; at age 30, height 170,
    weight 70, Sedentary, Lose Weight that is 1441. *)
Theorem calculatedCalorieGoal_spec :
  (forall fd : FormData,
     missing (age fd) \/ missing (height fd) \/ missing (currentWeight fd) \/
     activityLevel fd = None \/ fitnessGoal fd = None ->
     calculatedCalorieGoal fd = 0%Z) /\
  (forall (a h w : Q) (al : ActivityLevel) (fg : FitnessGoal),
     ~ a == 0 -> ~ h == 0 -> ~ w == 0 ->
     let r := calculatedCalorieGoal
                (mkFormData (Some a) (Some h) (Some w) (Some al) (Some fg)) in
     r = JS.Math_round (Reference.estimate a h w al fg) /\
     Reference.estimate a h w al fg - (1 # 2) < inject_Z r /\
     inject_Z r <= Reference.estimate a h w al fg + (1 # 2)) /\
  calculatedCalorieGoal
    (mkFormData (Some 30) (Some 170) (Some 70) (Some Sedentary) (Some LoseWeight))
  = 1441%Z.
Proof.
  split; [|split].
  - intros [a h w al fg]; simpl. unfold calculatedCalorieGoal; simpl.
    intros H.
    destruct a as [a|]; [|reflexivity]. destruct h as [h|]; [|reflexivity].
    destruct w as [w|]; [|reflexivity]. destruct al as [al|]; [|reflexivity].
    destruct fg as [fg|]; [|reflexivity].
    destruct H as [H|[H|[H|[H|H]]]]; try discriminate;
      simpl in H; rewrite (truthy_num_false _ H);
      rewrite ?andb_false_r; reflexivity.
  - intros a h w al fg Ha Hh Hw r.
    assert (E : r = JS.Math_round (Reference.estimate a h w al fg)).
    { unfold r, calculatedCalorieGoal; simpl.
      rewrite !truthy_num_true by assumption. simpl.
      apply Math_round_comp. unfold Reference.estimate.
      destruct (tables_agree al fg) as [-> ->]. ring. }
    split; [exact E|]. rewrite E. apply Math_round_nearest.
  - reflexivity.
Qed.

Lemma calculatedCalorieGoal_spec_witness :
  calculatedCalorieGoal
    (mkFormData (Some 0) (Some 170) (Some 70) (Some Sedentary) (Some LoseWeight))
  = 0%Z /\
  calculatedCalorieGoal
    (mkFormData (Some 25) (Some 180) (Some 80) (Some VeryActive) (Some BuildMuscle))
  = JS.Math_round (Reference.estimate 25 180 80 VeryActive BuildMuscle).
Proof.
  destruct calculatedCalorieGoal_spec as (Hzero & Hfull & _). split.
  - apply Hzero. left. simpl. reflexivity.
  - apply (Hfull 25 180 80 VeryActive BuildMuscle); discriminate.
Defined.

(** C3 as the specification states it fails twice: its worked example
    gives 1441, not 1465; and with every input present but age zero the
    estimator returns 0, which is no nearest integer of the formula (1621
    there). *)
Lemma calculatedCalorieGoal_counterexample :
  calculatedCalorieGoal
    (mkFormData (Some 30) (Some 170) (Some 70) (Some Sedentary) (Some LoseWeight))
  <> 1465%Z /\
  calculatedCalorieGoal
    (mkFormData (Some 0) (Some 170) (Some 70) (Some Sedentary) (Some LoseWeight))
  = 0%Z /\
  JS.Math_round (Reference.estimate 0 170 70 Sedentary LoseWeight) = 1621%Z.
Proof. split; [discriminate|]. split; reflexivity. Qed.

(** ** Unit conversion *)

(** C6. The conversions of Profile.tsx are inverse pairs (exactly, on
    rationals): pounds are kilograms times 2.20462, kilograms are pounds
    divided by 2.20462, centimetres are inches times 2.54 and inches are
    centimetres divided by 2.54. *)
Theorem unit_conversions_inverse (x : Q) :
  (Profile.kgToLbs (Profile.lbsToKg x) == x /\
   Profile.cmToIn (Profile.inToCm x) == x /\
   Profile.lbsToKg (Profile.kgToLbs x) == x /\
   Profile.inToCm (Profile.cmToIn x) == x) /\
  (Profile.kgToLbs x == x * (220462 # 100000) /\
   Profile.lbsToKg x == x / (220462 # 100000) /\
   Profile.inToCm x == x * (254 # 100) /\
   Profile.cmToIn x == x / (254 # 100)).
Proof.
  unfold Profile.kgToLbs, Profile.lbsToKg, Profile.cmToIn, Profile.inToCm,
    Profile.LBS_IN_KG, Profile.CM_IN_INCH.
  repeat split; try reflexivity; field.
Qed.

(** The two helpers of Onboarding.tsx are those of Profile.tsx. *)
Lemma onboarding_conversions (x : Q) :
  Onboarding.lbsToKg x = Profile.lbsToKg x /\
  Onboarding.inToCm x = Profile.inToCm x.
Proof. split; reflexivity. Qed.

(** ** Water intake *)

(** C5. [handleWaterChange] stores and returns the maximum of zero and
    the sum of the current count and the delta: the sum itself when it is not
    negative, zero otherwise; the result is never negative and never below
    the sum. *)
Theorem handleWaterChange_clamps (now : Z) (amount : Q) (st : State) (ls : Storage) :
  let r := handleWaterChange now amount st ls in
  let sum := waterIntake st + amount in
  waterIntake r.1 = Qmax 0 sum /\
  nutrisnap_waterIntake r.2 = Some (waterIntake r.1) /\
  0 <= waterIntake r.1 /\
  sum <= waterIntake r.1 /\
  (0 <= sum -> waterIntake r.1 == sum) /\
  (sum <= 0 -> waterIntake r.1 == 0).
Proof.
  simpl. unfold JS.Math_max.
  split; [reflexivity|].
  split; [reflexivity|].
  split; [apply Q.le_max_l|].
  split; [apply Q.le_max_r|].
  split; intros H.
  - apply Q.max_r, H.
  - apply Q.max_l, H.
Qed.

Lemma handleWaterChange_clamps_witness :
  let st := mkState [] 2 None [] [] None in
  let ls := mkStorage ∅ (Some 2) None in
  waterIntake (handleWaterChange 0 (-5) st ls).1 == 0 /\
  waterIntake (handleWaterChange 0 3 st ls).1 == 5.
Proof.
  intros st ls. split.
  - refine (proj2 (proj2 (proj2 (proj2 (proj2 (handleWaterChange_clamps 0 (-5) st ls))))) _).
    simpl. discriminate.
  - refine (proj1 (proj2 (proj2 (proj2 (proj2 (handleWaterChange_clamps 0 3 st ls))))) _).
    simpl. discriminate.
Defined.

(** ** The date key *)










(** ** Editing one item of a meal *)

Lemma array_assign_in_range {A : Type} (l : list A) (i : Z) (x : A) :
  (0 <= i < Z.of_nat (length l))%Z ->
  array_assign l i x = Some (<[Z.to_nat i := x]> l) /\
  replaced_at (Z.to_nat i) x l (<[Z.to_nat i := x]> l).
Proof.
  intros H. split.
  - unfold array_assign.
    replace (i <? 0)%Z with false by (symmetry; apply Z.ltb_ge; lia).
    replace (Z.to_nat i <? length l)%nat with true
      by (symmetry; apply Nat.ltb_lt; lia).
    reflexivity.
  - split; [apply length_insert|]. split.
    + apply list_lookup_insert_eq. lia.
    + intros j Hj. apply list_lookup_insert_ne. congruence.
Qed.





Example editMealItem_example :
  let apple := mkMacroData "apple" 95 0 25 0 19 in
  let bread := mkMacroData "bread" 80 3 15 1 1 in
  let toast := mkMacroData "toast" 90 3 17 1 1 in
  let run := LoggedExerciseItem "ex_1_0" "07:00" "Running" 150 in
  editMealItem "meal_2" 1 toast [LoggedMealItem "meal_2" "12:00" [apple; bread]; run]
  = Some [LoggedMealItem "meal_2" "12:00" [apple; toast]; run].
Proof. reflexivity. Qed.

(** ** Submitting the manual form and the activity form *)


Lemma gt_zero (c : Q) : JS.gt c 0 = true -> 0 < c.
Proof.
  unfold JS.gt. intros H. apply negb_true_iff in H.
  apply Qnot_le_lt. intros Hle. apply Qle_bool_iff in Hle. congruence.
Qed.







Example submit_partial_save_example :
  let r := handleManualLogSubmit 1704151800000 "23:30"
    (mkState [] 0 None
       [ManualItem.mk (Some "Apple"%string) (Some 95) None (Some 25) None None (Some false);
        ManualItem.mk (Some ""%string) (Some 50) None None None None (Some false)]
       [] None)
    (mkStorage ∅ None None) in
  error r.1 = None /\
  dailyLog r.1 = [LoggedMealItem "meal_1704151800000" "23:30"
                    [mkMacroData "Apple" 95 0 25 0 0]] /\
  nutrisnap_dailyLogs r.2 !! "2024-01-01"%string = Some (dailyLog r.1).
Proof. split; [reflexivity|]. split; [reflexivity|]. vm_compute. reflexivity. Qed.

(** ** Loading the persisted profile *)

Import App.

Lemma digit_char_head (n : Z) (acc : string) :
  digit_head (String (ascii_of_nat (48 + Z.to_nat (n mod 10))) acc).
Proof.
  assert (H : (0 <= n mod 10 < 10)%Z) by (apply Z.mod_pos_bound; reflexivity).
  unfold digit_head. rewrite nat_ascii_embedding by lia. lia.
Qed.

Lemma digits_fuel_head (fuel : nat) (n : Z) (acc : string) :
  digit_head acc -> digit_head (JS.digits_fuel fuel n acc).
Proof.
  revert n acc. induction fuel as [|fuel IH]; intros n acc H; [exact H|].
  cbn [JS.digits_fuel].
  destruct (n <? 10)%Z; [|apply IH]; apply digit_char_head.
Qed.

Lemma string_of_int_head (i : nat) : digit_head (JS.string_of_int (Z.of_nat i)).
Proof.
  unfold JS.string_of_int.
  replace (Z.of_nat i <? 0)%Z with false by (symmetry; apply Z.ltb_ge; lia).
  cbn [JS.digits_fuel].
  destruct (Z.abs (Z.of_nat i) <? 10)%Z;
    [|apply digits_fuel_head]; apply digit_char_head.
Qed.

(** An array has no property whose name does not start with a digit. *)
Lemma array_no_named_property (elements : list JSON) (k : string) :
  ~ digit_head k -> own_properties (JArr elements) !! k = None.
Proof.
  intros Hk. simpl. apply not_elem_of_list_to_map. intros Hin.
  apply list_elem_of_fmap in Hin as ([k' v] & -> & Hin).
  apply elem_of_lookup_imap_1 in Hin as (i & x & E & _).
  injection E as -> ->. apply Hk. simpl. apply string_of_int_head.
Qed.

Lemma truthy_prop_union (props : gmap string JSON) (k : string) (d : JSON) :
  defaultProfile !! k = Some d ->
  truthy_prop (props ∪ defaultProfile) k =
  match props !! k with Some v => truthy v | None => truthy d end.
Proof.
  intros Hd. unfold truthy_prop. rewrite lookup_union, Hd.
  destruct (props !! k); reflexivity.
Qed.

Lemma default_name : defaultProfile !! "name"%string = Some (JStr "User").
Proof. vm_compute. reflexivity. Qed.

Lemma default_email : defaultProfile !! "email"%string = Some (JStr "").
Proof. vm_compute. reflexivity. Qed.

Lemma default_avatarUrl : defaultProfile !! "avatarUrl"%string = Some (JStr "").
Proof. vm_compute. reflexivity. Qed.

(** The tests of the loader amount to [accepts]. *)
Lemma loader_tests (v : JSON) :
  truthy v && typeof_object v &&
  (truthy_prop (own_properties v ∪ defaultProfile) "name"
   && truthy_prop (own_properties v ∪ defaultProfile) "email"
   && truthy_prop (own_properties v ∪ defaultProfile) "avatarUrl")
  = accepts v.
Proof.
  rewrite (truthy_prop_union _ _ _ default_name),
    (truthy_prop_union _ _ _ default_email),
    (truthy_prop_union _ _ _ default_avatarUrl).
  destruct v as [|b|n|s|elements|props]; simpl accepts;
    try reflexivity; try (simpl; rewrite andb_false_r; reflexivity).
  - rewrite (array_no_named_property elements "email")
      by (intros [_ H]; vm_compute in H; lia).
    simpl. rewrite andb_false_r. reflexivity.
  - simpl own_properties. unfold truthy_prop. simpl truthy.
    destruct (props !! "name"%string) as [n|]; destruct (props !! "email"%string) as [e|];
      destruct (props !! "avatarUrl"%string) as [a|]; simpl;
      rewrite ?andb_true_r, ?andb_false_r; try reflexivity;
      destruct (truthy n); destruct (truthy e); try destruct (truthy a); reflexivity.
Qed.

(** C8, as amended. With no profile text stored nothing happens. A stored
    text that does not parse, or parses to a value other than an object whose
    [email] and [avatarUrl] are truthy and whose [name] is truthy or absent,
    is removed together with the onboarding flag, and the sign-up screen is
    rendered. Any other stored text is loaded, an absent [name] reading
    'User', the storage is kept, and the sign-up screen is skipped. *)
Theorem loadProfile_spec (JSON_parse : string -> option JSON)
    (ls : gmap string string) :
  (ls !! "nutrisnap_userProfile"%string = None \/
   ls !! "nutrisnap_userProfile"%string = Some ""%string ->
   loadProfile JSON_parse initial ls = (initial, ls)) /\
  (forall raw,
     ls !! "nutrisnap_userProfile"%string = Some raw -> raw <> ""%string ->
     let r := loadProfile JSON_parse initial ls in
     match JSON_parse raw with
     | Some v =>
         if accepts v then
           userProfile r.1 = Some (own_properties v ∪ defaultProfile) /\
           isOnboardingComplete r.1 =
             bool_decide (ls !! "nutrisnap_onboardingComplete"%string
                          = Some "true"%string) /\
           r.2 = ls /\ render r.1 <> SignUp
         else r = (initial, clearProfile ls)
     | None => r = (initial, clearProfile ls)
     end) /\
  (render initial = SignUp /\
   clearProfile ls !! "nutrisnap_userProfile"%string = None /\
   clearProfile ls !! "nutrisnap_onboardingComplete"%string = None) /\
  (forall props : gmap string JSON,
     props !! "name"%string = None ->
     (props ∪ defaultProfile) !! "name"%string = Some (JStr "User")).
Proof.
  split; [|split; [|split]].
  - intros [H|H]; unfold loadProfile; rewrite H; reflexivity.
  - intros raw Hraw Hne r. unfold r, loadProfile. rewrite Hraw.
    destruct raw as [|c raw]; [congruence|]. cbn [JS.truthy_str].
    destruct (JSON_parse (String c raw)) as [v|]; [|reflexivity].
    pose proof (loader_tests v) as T.
    destruct (truthy v && typeof_object v); simpl in T.
    + rewrite T. destruct (accepts v); [|reflexivity].
      simpl. repeat split.
      unfold render; simpl. destruct (bool_decide _); discriminate.
    + rewrite <- T. reflexivity.
  - split; [reflexivity|]. unfold clearProfile. split.
    + rewrite lookup_delete_ne by discriminate. apply lookup_delete_eq.
    + apply lookup_delete_eq.
  - intros props H. rewrite lookup_union, H, default_name. reflexivity.
Qed.

Lemma loadProfile_spec_witness :
  let ls : gmap string string := {[ "nutrisnap_userProfile"%string := namelessText ]} in
  loadProfile (fun _ => None) initial ls = (initial, clearProfile ls) /\
  loadProfile parseNameless initial ∅ = (initial, ∅) /\
  ((∅ : gmap string JSON) ∪ defaultProfile) !! "name"%string = Some (JStr "User").
Proof.
  intros ls. split; [|split].
  - apply (proj1 (proj2 (loadProfile_spec (fun _ => None) ls)) namelessText).
    + vm_compute. reflexivity.
    + discriminate.
  - apply (proj1 (loadProfile_spec parseNameless ∅)). left. reflexivity.
  - apply (proj2 (proj2 (proj2 (loadProfile_spec parseNameless ∅)))). reflexivity.
Defined.

(** C8 as the specification states it fails: a stored record that lacks
    [name] (and has the other two fields) is not discarded; it is loaded
    under the name 'User' and the sign-up screen is skipped. *)
Lemma loadProfile_missing_name_counterexample :
  let ls : gmap string string := {[ "nutrisnap_userProfile"%string := namelessText ]} in
  let r := loadProfile parseNameless initial ls in
  own_properties namelessRecord !! "name"%string = None /\
  (exists p, userProfile r.1 = Some p /\ p !! "name"%string = Some (JStr "User")) /\
  render r.1 = Onboarding /\
  r.2 !! "nutrisnap_userProfile"%string = Some namelessText.
Proof.
  intros ls r. split; [vm_compute; reflexivity|]. split; [|split].
  - eexists. split; [vm_compute; reflexivity|]. vm_compute. reflexivity.
  - vm_compute. reflexivity.
  - vm_compute. reflexivity.
Qed.

(** * Further properties of the components *)

(** ** The dashboard: clearing, deleting whole entries, reloading *)

(** X1. [clearDailyLog], once confirmed, leaves an empty log with zero
    totals and zero water, in the state and in today's bucket of the storage,
    and touches no other bucket; a mount on the same day then shows the empty
    log and no water. Without confirmation nothing changes. *)
Theorem clearDailyLog_resets (now : Z) (st : Dashboard.State) (ls : Storage) :
  let r := clearDailyLog true now st ls in
  (dailyLog r.1 = [] /\ waterIntake r.1 == 0 /\
   Totals.computeTotals (dailyLog r.1) = Totals.zero) /\
  (nutrisnap_dailyLogs r.2 !! getTodaysDateKey now = Some [] /\
   (forall k, k <> getTodaysDateKey now ->
      nutrisnap_dailyLogs r.2 !! k = nutrisnap_dailyLogs ls !! k) /\
   nutrisnap_logDate r.2 = Some (getTodaysDateKey now)) /\
  (forall st', dailyLog (mount now st' r.2).1 = [] /\
               waterIntake (mount now st' r.2).1 == 0) /\
  clearDailyLog false now st ls = (st, ls).
Proof.
  cbn zeta. unfold clearDailyLog, saveLog, saveWaterIntake, mount.
  cbn [fst snd dailyLog waterIntake nutrisnap_dailyLogs nutrisnap_waterIntake
       nutrisnap_logDate set_dailyLog set_waterIntake].
  repeat split; try reflexivity.
  - apply lookup_insert_eq.
  - intros k Hk. apply lookup_insert_ne. congruence.
  - rewrite lookup_insert_eq. rewrite bool_decide_eq_true_2 by reflexivity.
    reflexivity.
  - rewrite bool_decide_eq_true_2 by reflexivity. reflexivity.
Qed.

Lemma dailyTotals_cons (e : DailyLogEntry) (l : list DailyLogEntry) :
  Totals_eq (Reference.dailyTotals (e :: l))
    (Totals_plus (Reference.dailyTotals [e]) (Reference.dailyTotals l)).
Proof. apply (dailyTotals_app [e] l). Qed.

(** The totals of a log are those of the entries a test keeps plus those
    of the entries it rejects. *)
Lemma dailyTotals_partition (p : DailyLogEntry -> bool) (l : list DailyLogEntry) :
  Totals_eq (Reference.dailyTotals l)
    (Totals_plus (Reference.dailyTotals (filter p l))
       (Reference.dailyTotals (filter (fun e => negb (p e)) l))).
Proof.
  induction l as [|e l IH].
  - unfold Totals_eq, Totals_plus; simpl. repeat split; ring.
  - rewrite dailyTotals_cons, IH. destruct (p e) eqn:E.
    + rewrite (filter_cons_True p) by (rewrite E; exact I).
      rewrite (filter_cons_False (fun e => negb (p e))) by (rewrite E; simpl; tauto).
      rewrite (dailyTotals_cons e (filter p l)).
      unfold Totals_eq, Totals_plus; simpl. repeat split; ring.
    + rewrite (filter_cons_False p) by (rewrite E; simpl; tauto).
      rewrite (filter_cons_True (fun e => negb (p e))) by (rewrite E; exact I).
      rewrite (dailyTotals_cons e (filter (fun e => negb (p e)) l)).
      unfold Totals_eq, Totals_plus; simpl. repeat split; ring.
Qed.

(** X2. Deleting a whole entry ([handleDeleteItem] without an item index)
    keeps exactly the entries with another id, in their order, meals without
    items included; it changes nothing when no entry has the id, deleting
    again changes nothing more, and the totals before are the totals after
    plus those of the entries removed. Declining the confirmation leaves the
    state and the storage as they were. *)
Theorem deleteEntry_spec (entryId : string) (log : list DailyLogEntry) :
  let r := deleteFromLog entryId None log in
  (forall e, e ∈ r <-> e ∈ log /\ entry_id e <> entryId) /\
  r `sublist_of` log /\
  (Forall (fun e => entry_id e <> entryId) log -> r = log) /\
  deleteFromLog entryId None r = r /\
  Totals_eq (Totals.computeTotals log)
    (Totals_plus (Totals.computeTotals r)
       (Totals.computeTotals
          (filter (fun e => (entry_id e =? entryId)%string) log))) /\
  (forall now st ls,
     handleDeleteItem false now entryId None st ls = (st, ls) /\
     dailyLog (handleDeleteItem true now entryId None st ls).1
     = deleteFromLog entryId None (dailyLog st)).
Proof.
  cbn zeta. unfold deleteFromLog.
  assert (Hin : forall e,
    e ∈ filter (fun e => negb (entry_id e =? entryId)%string) log
    <-> e ∈ log /\ entry_id e <> entryId).
  { intros e. rewrite list_elem_of_filter.
    destruct (String.eqb_spec (entry_id e) entryId); simpl; tauto. }
  split; [exact Hin|]. split; [apply sublist_filter|]. split; [|split; [|split]].
  - clear Hin. induction 1 as [|e l He _ IH]; [reflexivity|].
    rewrite filter_cons_True.
    + rewrite IH. reflexivity.
    + apply String.eqb_neq in He. rewrite He. exact I.
  - apply list_filter_filter_l. intros e H. exact H.
  - rewrite !computeTotals_dailyTotals.
    rewrite (dailyTotals_partition (fun e => negb (entry_id e =? entryId)%string) log) at 1.
    assert (E : filter (fun e => negb (negb (entry_id e =? entryId)%string)) log
                = filter (fun e => (entry_id e =? entryId)%string) log).
    { apply list_filter_iff. intros e. rewrite negb_involutive. tauto. }
    rewrite E. reflexivity.
  - intros now st ls. split; reflexivity.
Qed.

Lemma deleteEntry_spec_witness :
  let run := LoggedExerciseItem "ex_1_0" "07:00" "Running" 150 in
  let meal := LoggedMealItem "meal_2" "12:00" [] in
  deleteFromLog "meal_9" None [run; meal] = [run; meal] /\
  deleteFromLog "ex_1_0" None [run; meal] = [meal].
Proof.
  intros run meal. split; [|reflexivity].
  apply (proj1 (proj2 (proj2 (deleteEntry_spec "meal_9" [run; meal])))).
  repeat constructor; discriminate.
Defined.

(** X3. What was saved is what a later mount shows, as long as the date
    key is the same: the log saved and the water count, clamped at zero. When
    the key has changed the mount shows the bucket of the new key, resets the
    water to zero and removes the two water entries from the storage, leaving
    every log bucket as it was. *)
Theorem mount_after_save (now now' : Z) (log : list DailyLogEntry) (glasses : Q)
    (st st' : Dashboard.State) (ls : Storage) :
  let s1 := saveLog now log st ls in
  let s2 := saveWaterIntake now glasses s1.1 s1.2 in
  let m := mount now' st' s2.2 in
  (getTodaysDateKey now' = getTodaysDateKey now ->
   dailyLog m.1 = log /\ waterIntake m.1 = JS.Math_max 0 glasses /\ m.2 = s2.2) /\
  (getTodaysDateKey now' <> getTodaysDateKey now ->
   dailyLog m.1 = default [] (nutrisnap_dailyLogs ls !! getTodaysDateKey now') /\
   waterIntake m.1 = 0 /\
   nutrisnap_waterIntake m.2 = None /\ nutrisnap_logDate m.2 = None /\
   nutrisnap_dailyLogs m.2 = nutrisnap_dailyLogs s2.2 /\
   nutrisnap_dailyLogs m.2 !! getTodaysDateKey now = Some log).
Proof.
  cbn zeta. unfold mount, saveWaterIntake, saveLog.
  cbn [fst snd dailyLog waterIntake nutrisnap_dailyLogs nutrisnap_waterIntake
       nutrisnap_logDate set_dailyLog set_waterIntake]. split.
  - intros E. rewrite E, lookup_insert_eq.
    rewrite bool_decide_eq_true_2 by reflexivity. simpl. repeat split.
  - intros E. rewrite lookup_insert_ne by congruence.
    rewrite bool_decide_eq_false_2 by congruence. simpl.
    repeat split. apply lookup_insert_eq.
Qed.

Lemma mount_after_save_witness :
  let st := Dashboard.mkState [] 0 None [] [] None in
  let ls := mkStorage ∅ None None in
  let run := LoggedExerciseItem "ex_1_0" "07:00" "Running" 150 in
  let s1 := saveLog 1704151800000 [run] st ls in
  let s2 := saveWaterIntake 1704151800000 3 s1.1 s1.2 in
  dailyLog (mount 1704151860000 st s2.2).1 = [run] /\
  waterIntake (mount 1704240000000 st s2.2).1 = 0.
Proof.
  intros st ls run s1 s2. split.
  - apply (proj1 (mount_after_save 1704151800000 1704151860000 [run] 3 st st ls)).
    reflexivity.
  - apply (proj2 (mount_after_save 1704151800000 1704240000000 [run] 3 st st ls)).
    intros H. vm_compute in H. discriminate H.
Defined.

(** ** The dashboard: what a submission and an edit do to the totals *)



(** On a log whose only entry with the given id is one meal, the edit
    replaces the item at a valid index of that meal and keeps the rest. *)
Lemma editMealItem_unique (entryId ts : string) (idx : nat)
    (l1 l2 : list DailyLogEntry) (items : list MacroData) (old new : MacroData) :
  items !! idx = Some old ->
  Forall (fun e => entry_id e <> entryId) (l1 ++ l2) ->
  editMealItem entryId (Z.of_nat idx) new
    (l1 ++ LoggedMealItem entryId ts items :: l2)
  = Some (l1 ++ LoggedMealItem entryId ts (<[idx := new]> items) :: l2).
Proof.
  intros Hold Hids.
  unfold editMealItem. apply mapM_Some_2.
  apply Forall_app in Hids as [H1 H2].
  assert (Hkeep : forall l, Forall (fun e => entry_id e <> entryId) l ->
    Forall2 (fun x y =>
      replaceItem (mkEditing entryId (Z.of_nat idx) new) x = Some y) l l).
  { induction 1 as [|e l He _ IH]; constructor; [|exact IH].
    destruct e as [i ts' its | i ts' n c]; simpl; [|reflexivity].
    simpl in He. apply String.eqb_neq in He. rewrite He. reflexivity. }
  apply Forall2_app; [apply Hkeep, H1|].
  constructor; [|apply Hkeep, H2].
  simpl. rewrite String.eqb_refl.
  destruct (array_assign_in_range items (Z.of_nat idx) new) as [-> _].
  { apply lookup_lt_Some in Hold. lia. }
  rewrite Nat2Z.id. reflexivity.
Qed.

(** X5. Replacing the item at a valid index of the one meal that has the
    given id changes the totals by the difference of the two items: the
    totals after, plus the old item, are the totals before, plus the new
    item. *)
Theorem editMealItem_totals (entryId ts : string) (idx : nat)
    (l1 l2 : list DailyLogEntry) (items : list MacroData) (old new : MacroData) :
  items !! idx = Some old ->
  Forall (fun e => entry_id e <> entryId) (l1 ++ l2) ->
  let before := l1 ++ LoggedMealItem entryId ts items :: l2 in
  let after := l1 ++ LoggedMealItem entryId ts (<[idx := new]> items) :: l2 in
  editMealItem entryId (Z.of_nat idx) new before = Some after /\
  Totals_eq (Totals.add_item (Totals.computeTotals after) old)
    (Totals.add_item (Totals.computeTotals before) new).
Proof.
  intros Hold Hids before after. split.
  - exact (editMealItem_unique entryId ts idx l1 l2 items old new Hold Hids).
  - unfold before, after. rewrite !computeTotals_dailyTotals.
    change (?m :: l2) with ([m] ++ l2).
    pose proof (dailyTotals_app l1
      ([LoggedMealItem entryId ts (<[idx:=new]> items)] ++ l2)) as A1.
    pose proof (dailyTotals_app
      [LoggedMealItem entryId ts (<[idx:=new]> items)] l2) as A2.
    pose proof (dailyTotals_app l1 ([LoggedMealItem entryId ts items] ++ l2)) as B1.
    pose proof (dailyTotals_app [LoggedMealItem entryId ts items] l2) as B2.
    pose proof (dailyTotals_meal_delete entryId ts items idx old Hold) as M1.
    assert (Hnew : <[idx:=new]> items !! idx = Some new).
    { apply list_lookup_insert_eq. eapply lookup_lt_Some, Hold. }
    pose proof (dailyTotals_meal_delete entryId ts (<[idx:=new]> items) idx new Hnew)
      as M2.
    assert (D : delete idx (<[idx:=new]> items) = delete idx items).
    { clear. revert idx. induction items as [|x items IH]; intros [|idx];
        simpl; try reflexivity. f_equal. apply IH. }
    rewrite D in M2.
    rewrite A1, A2, B1, B2, M1, M2.
    unfold Totals_eq, Totals_plus; simpl. repeat split; ring.
Qed.

Lemma editMealItem_totals_witness :
  let apple := mkMacroData "apple" 95 0 25 0 19 in
  let toast := mkMacroData "toast" 90 3 17 1 1 in
  let run := LoggedExerciseItem "ex_1_0" "07:00" "Running" 150 in
  editMealItem "meal_2" 0 toast ([run] ++ LoggedMealItem "meal_2" "12:00" [apple] :: [])
  = Some ([run] ++ LoggedMealItem "meal_2" "12:00" [toast] :: []).
Proof.
  intros apple toast run.
  apply (editMealItem_totals "meal_2" "12:00" 0 [run] [] [apple] apple toast).
  - reflexivity.
  - repeat constructor. discriminate.
Defined.

(** ** The dashboard: the rows of the forms *)

(** X6. Removing a row never empties a form: a form of one row is left as
    it is, and from a longer form exactly the row at the index is removed
    (none when the index names no row). *)
Theorem remove_row_keeps_one (index : nat) (st : Dashboard.State) :
  (let rows := manualItems st in
   let rows' := manualItems (Forms.removeManualItem index st) in
   ((1 <= length rows)%nat -> (1 <= length rows')%nat) /\
   ((length rows <= 1)%nat -> rows' = rows) /\
   ((1 < length rows)%nat -> rows' = delete index rows)) /\
  (let rows := activityItems st in
   let rows' := activityItems (Forms.removeActivityItem index st) in
   ((1 <= length rows)%nat -> (1 <= length rows')%nat) /\
   ((length rows <= 1)%nat -> rows' = rows) /\
   ((1 < length rows)%nat -> rows' = delete index rows)).
Proof.
  assert (Hlen : forall (A : Type) (l : list A),
    (1 < length l)%nat -> (1 <= length (delete index l))%nat).
  { intros A l H. destruct (decide (index < length l)%nat) as [Hi|Hi].
    - rewrite length_delete by (apply lookup_lt_is_Some; exact Hi). lia.
    - rewrite delete_beyond by lia. lia. }
  split; cbn zeta.
  - unfold Forms.removeManualItem.
    destruct (Nat.ltb_spec 1 (length (manualItems st))) as [H|H]; simpl.
    + rewrite filter_index_item by lia. rewrite Nat2Z.id.
      split; [intros _; apply Hlen, H|]. split; [lia|reflexivity].
    + split; [tauto|]. split; [reflexivity|lia].
  - unfold Forms.removeActivityItem.
    destruct (Nat.ltb_spec 1 (length (activityItems st))) as [H|H]; simpl.
    + rewrite filter_index_item by lia. rewrite Nat2Z.id.
      split; [intros _; apply Hlen, H|]. split; [lia|reflexivity].
    + split; [tauto|]. split; [reflexivity|lia].
Qed.

Lemma remove_row_keeps_one_witness :
  let a := ActivityItem.mk "Yoga" (Some 30) (Some 120) in
  let b := ActivityItem.mk "Rowing" (Some 10) (Some 100) in
  activityItems (Forms.removeActivityItem 0 (Dashboard.mkState [] 0 None [] [a] None))
  = [a] /\
  activityItems (Forms.removeActivityItem 0 (Dashboard.mkState [] 0 None [] [a; b] None))
  = [b].
Proof.
  intros a b. split.
  - apply (proj2 (remove_row_keeps_one 0 (Dashboard.mkState [] 0 None [] [a] None))).
    simpl. lia.
  - apply (proj2 (remove_row_keeps_one 0 (Dashboard.mkState [] 0 None [] [a; b] None))).
    simpl. lia.
Defined.





(** X8. Emptying the calories field of a row of the manual form makes the
    row invalid, so that a later submission does not log it; the other rows
    are not touched. *)
Theorem manual_row_cleared (parseFloat : string -> Q) (index : nat)
    (row : ManualItem.t) (st : Dashboard.State) :
  manualItems st !! index = Some row ->
  exists st' row',
    Forms.handleManualItemChange parseFloat index Forms.Calories "" st = Some st' /\
    manualItems st' !! index = Some row' /\
    manualItemValid row' = false /\
    ManualItem.foodName row' = ManualItem.foodName row /\
    length (manualItems st') = length (manualItems st) /\
    (forall j, j <> index -> manualItems st' !! j = manualItems st !! j).
Proof.
  intros Hrow. unfold Forms.handleManualItemChange. rewrite Hrow. simpl default.
  destruct (array_assign_in_range (manualItems st) (Z.of_nat index)
              (Forms.setManualField parseFloat Forms.Calories "" row))
    as [E (Hlen & Hget & Hother)].
  { apply lookup_lt_Some in Hrow. lia. }
  rewrite E. csimpl. rewrite Nat2Z.id in *.
  eexists _, _. split; [reflexivity|]. simpl.
  split; [exact Hget|]. destruct row as [n c p cb f s l]. simpl.
  split; [destruct n; reflexivity|]. split; [reflexivity|].
  split; [exact Hlen|exact Hother].
Qed.

Lemma manual_row_cleared_witness :
  let row := ManualItem.mk (Some "Apple"%string) (Some 95) None None None None None in
  exists st' row',
    Forms.handleManualItemChange (fun _ => 0) 0 Forms.Calories ""
      (Dashboard.mkState [] 0 None [row] [] None) = Some st' /\
    manualItems st' !! 0%nat = Some row' /\ manualItemValid row' = false.
Proof.
  intros row.
  destruct (manual_row_cleared (fun _ => 0) 0 row
              (Dashboard.mkState [] 0 None [row] [] None) eq_refl)
    as (st' & row' & E & G & V & _).
  exists st', row'. split; [exact E|]. split; [exact G|exact V].
Defined.

(** ** The barcode service *)





(** An energy below one half and above zero passes the test and is logged
    as zero calories. *)
Example lookupBarcode_rounds_to_zero :
  let n := Barcode.mkNutriments None (Some (4 # 10)) None None None None
             None None None None in
  exists it,
    Barcode.lookupBarcode
      (Some (Barcode.mkResponse true None
               (Some (Barcode.mkProduct (Some "Tea"%string) (Some "250ml"%string)
                        (Some n)))))
    = inr (Some it) /\
    foodName it = "Tea (250ml)"%string /\ calories it == 0.
Proof. eexists. split; [reflexivity|]. split; reflexivity. Qed.

(** X10. A scan logs at most one entry. When the product was found the
    new entry comes first and holds exactly the item found, so it is no empty
    meal, the error is cleared and today's bucket holds the new log; when it
    was not found, or the lookup failed, the log and the storage stay as they
    were and a message is set. *)
Theorem barcode_scan_logs_one_item (now : Z) (ts code : string)
    (response : option Barcode.Response) (st : Dashboard.State) (ls : Storage) :
  let r := Forms.handleBarcodeScanned now ts code
             (Barcode.lookupBarcode response) st ls in
  match Barcode.lookupBarcode response with
  | inr (Some it) =>
      error r.1 = None /\
      (exists entry,
         dailyLog r.1 = entry :: dailyLog st /\ entry_items entry = [it] /\
         keepEntry entry = true /\
         entry_id entry = ("meal_barcode_" ++ JS.string_of_int now)%string) /\
      nutrisnap_dailyLogs r.2 !! getTodaysDateKey now = Some (dailyLog r.1)
  | _ =>
      dailyLog r.1 = dailyLog st /\ r.2 = ls /\
      exists msg, error r.1 = Some msg /\ msg <> ""%string
  end.
Proof.
  cbn zeta. destruct (Barcode.lookupBarcode response) as [msg|[it|]] eqn:E.
  - simpl. split; [reflexivity|]. split; [reflexivity|].
    destruct msg as [|c msg]; eexists; (split; [reflexivity|discriminate]).
  - simpl. split; [reflexivity|]. split.
    + eexists. repeat split.
    + apply lookup_insert_eq.
  - simpl. split; [reflexivity|]. split; [reflexivity|].
    eexists. split; [reflexivity|discriminate].
Qed.

(** ** The Progress view *)







Lemma macroTotals_sums (days : list ProgressView.DayData) (acc : Q * Q * Q) :
  let r := fold_left
    (fun acc day =>
       (acc.1.1 + ProgressView.protein day, acc.1.2 + ProgressView.carbs day,
        acc.2 + ProgressView.fat day)) days acc in
  r.1.1 == acc.1.1 + Reference.sumQ (ProgressView.protein <$> days) /\
  r.1.2 == acc.1.2 + Reference.sumQ (ProgressView.carbs <$> days) /\
  r.2 == acc.2 + Reference.sumQ (ProgressView.fat <$> days).
Proof.
  revert acc. induction days as [|day days IH]; intros acc; cbn zeta.
  - simpl. repeat split; ring.
  - simpl fold_left. destruct (IH (acc.1.1 + ProgressView.protein day,
        acc.1.2 + ProgressView.carbs day, acc.2 + ProgressView.fat day))
      as (H1 & H2 & H3).
    cbn zeta in *. rewrite H1, H2, H3. csimpl. repeat split; ring.
Qed.

(** X13. The macro distribution has no slice exactly when protein, carbs
    and fat of the days add up to zero; otherwise it has the three slices
    Protein, Carbs and Fat, in that order, each the sum of its field over the
    days. *)
Theorem macroDistribution_slices (days : list ProgressView.DayData) :
  let p := Reference.sumQ (ProgressView.protein <$> days) in
  let c := Reference.sumQ (ProgressView.carbs <$> days) in
  let f := Reference.sumQ (ProgressView.fat <$> days) in
  (p + c + f == 0 -> ProgressView.macroDistribution days = []) /\
  (~ p + c + f == 0 ->
   exists p' c' f',
     ProgressView.macroDistribution days
     = [("Protein"%string, p'); ("Carbs"%string, c'); ("Fat"%string, f')] /\
     p' == p /\ c' == c /\ f' == f).
Proof.
  cbn zeta. unfold ProgressView.macroDistribution, ProgressView.macroTotals.
  destruct (macroTotals_sums days (0, 0, 0)) as (H1 & H2 & H3). cbn zeta in *.
  destruct (fold_left _ days (0, 0, 0)) as [[p c] f]. simpl in H1, H2, H3.
  assert (Hp : p == Reference.sumQ (ProgressView.protein <$> days)) by (rewrite H1; ring).
  assert (Hc : c == Reference.sumQ (ProgressView.carbs <$> days)) by (rewrite H2; ring).
  assert (Hf : f == Reference.sumQ (ProgressView.fat <$> days)) by (rewrite H3; ring).
  split.
  - intros E. rewrite <- Hp, <- Hc, <- Hf in E.
    apply Qeq_bool_iff in E. rewrite E. reflexivity.
  - intros E. rewrite <- Hp, <- Hc, <- Hf in E.
    destruct (Qeq_bool (p + c + f) 0) eqn:B.
    + apply Qeq_bool_iff in B. contradiction.
    + exists p, c, f. repeat split; assumption.
Qed.

Lemma macroDistribution_slices_witness :
  ProgressView.macroDistribution [ProgressView.mkDayData "Mon" (-150) 0 0 0] = [].
Proof.
  apply (proj1 (macroDistribution_slices [ProgressView.mkDayData "Mon" (-150) 0 0 0])).
  reflexivity.
Defined.

(** ** Profile: the weight history, imperial units *)

Lemma filter_none {A : Type} (P : A -> Prop) `{forall x, Decision (P x)}
    (l : list A) :
  Forall (fun x => ~ P x) l -> filter P l = [].
Proof.
  induction 1 as [|x l Hx _ IH]; [reflexivity|].
  rewrite filter_cons_False by exact Hx. exact IH.
Qed.

(** X14. Saving a profile whose weight has changed records the weight
    under today's date as the last entry of the history, replaces whatever
    entry today already had, and keeps the entries of the other dates in
    their order: dates that were distinct stay distinct. Saving without a
    change of weight leaves the history as it is. *)
Theorem handleSave_history (now : Z)
    (formData userProfile : ProfileEdit.Profile) :
  let today := JS.slice0 10 (JS.toISOString now) in
  let old := default [] (ProfileEdit.weightHistory formData) in
  (forall w,
     ProfileEdit.currentWeight formData = Some w ->
     ProfileEdit.differs (Some w) (ProfileEdit.currentWeight userProfile) = true ->
     exists hist,
       ProfileEdit.weightHistory (ProfileEdit.handleSave now formData userProfile)
       = Some hist /\
       last hist = Some (ProfileEdit.mkWeightEntry today w) /\
       filter (fun e => ProfileEdit.date e = today) hist
       = [ProfileEdit.mkWeightEntry today w] /\
       filter (fun e => ProfileEdit.date e <> today) hist
       = filter (fun e => ProfileEdit.date e <> today) old /\
       (NoDup (ProfileEdit.date <$> old) -> NoDup (ProfileEdit.date <$> hist))) /\
  (ProfileEdit.differs (ProfileEdit.currentWeight formData)
     (ProfileEdit.currentWeight userProfile) = false \/
   ProfileEdit.currentWeight formData = None ->
   ProfileEdit.handleSave now formData userProfile = formData).
Proof.
  cbn zeta. split.
  - intros w Hw Hd. unfold ProfileEdit.handleSave. rewrite Hw, Hd.
    cbn [ProfileEdit.weightHistory ProfileEdit.date].
    set (today := JS.slice0 10 (JS.toISOString now)).
    set (old := default [] (ProfileEdit.weightHistory formData)).
    assert (EF : filter (fun entry => negb (ProfileEdit.date entry =? today)%string) old
                 = filter (fun e => ProfileEdit.date e <> today) old).
    { apply list_filter_iff. intros e.
      destruct (String.eqb_spec (ProfileEdit.date e) today); simpl; tauto. }
    rewrite EF. set (F := filter (fun e => ProfileEdit.date e <> today) old).
    assert (HF : Forall (fun e => ProfileEdit.date e <> today) F).
    { apply Forall_forall. intros e He. apply list_elem_of_filter in He. tauto. }
    eexists. split; [reflexivity|]. split; [apply last_snoc|]. split; [|split].
    + rewrite filter_app, filter_none.
      * rewrite filter_cons_True by reflexivity. reflexivity.
      * eapply Forall_impl; [exact HF|]. intros e He. exact He.
    + rewrite filter_app. rewrite (filter_cons_False _ _ []) by (simpl; tauto).
      rewrite filter_nil, app_nil_r. unfold F.
      apply list_filter_filter_l. tauto.
    + intros Hnd. rewrite fmap_app. apply NoDup_app. split; [|split].
      * eapply sublist_NoDup; [exact Hnd|apply fmap_sublist, sublist_filter].
      * intros d Hd1 Hd2. apply list_elem_of_fmap in Hd1 as (e & -> & He).
        apply list_elem_of_singleton in Hd2. simpl in Hd2.
        rewrite Forall_forall in HF. apply (HF e He), Hd2.
      * apply NoDup_singleton.
  - intros [H|H]; unfold ProfileEdit.handleSave.
    + destruct (ProfileEdit.currentWeight formData) as [w|]; [|reflexivity].
      rewrite H. reflexivity.
    + rewrite H. reflexivity.
Qed.

Lemma handleSave_history_witness :
  let form := ProfileEdit.mkProfile (Some 70)
                (Some [ProfileEdit.mkWeightEntry "2024-01-01" 72;
                       ProfileEdit.mkWeightEntry "2023-12-31" 73]) in
  let prev := ProfileEdit.mkProfile (Some 72) (ProfileEdit.weightHistory form) in
  exists hist,
    ProfileEdit.weightHistory (ProfileEdit.handleSave 1704151800000 form prev)
    = Some hist /\
    last hist = Some (ProfileEdit.mkWeightEntry "2024-01-01" 70) /\
    ProfileEdit.handleSave 1704151800000 prev prev = prev.
Proof.
  intros form prev.
  destruct (proj1 (handleSave_history 1704151800000 form prev) 70 eq_refl eq_refl)
    as (hist & Hh & Hl & _).
  exists hist. split; [exact Hh|]. split; [exact Hl|].
  apply (proj2 (handleSave_history 1704151800000 prev prev)). left. reflexivity.
Defined.





(** X16. A weight typed in pounds is stored as the kilograms whose
    conversion back to pounds is the number typed; a weight typed in
    kilograms is stored as typed; an empty field, or a text that is no
    number, stores no weight. *)
Theorem weightInput_units (parseFloat : string -> option Q) (value : string) :
  (forall x,
     parseFloat value = Some x -> value <> ""%string ->
     (exists kg, ProfileEdit.weightInput parseFloat true value = Some kg /\
                 Profile.kgToLbs kg == x) /\
     ProfileEdit.weightInput parseFloat false value = Some x) /\
  (parseFloat value = None \/ value = ""%string ->
   forall lbs, ProfileEdit.weightInput parseFloat lbs value = None).
Proof.
  split.
  - intros x Hx Hv. unfold ProfileEdit.weightInput.
    apply String.eqb_neq in Hv. rewrite Hv, Hx. split; [|reflexivity].
    eexists. split; [reflexivity|].
    unfold Profile.kgToLbs, Profile.lbsToKg, Profile.LBS_IN_KG. field.
  - intros [H|H] lbs; unfold ProfileEdit.weightInput.
    + rewrite H. destruct (value =? "")%string; reflexivity.
    + rewrite H. reflexivity.
Qed.

Lemma weightInput_units_witness :
  let parse := fun s : string => if (s =? "150")%string then Some 150 else None in
  (exists kg, ProfileEdit.weightInput parse true "150" = Some kg /\
              Profile.kgToLbs kg == 150) /\
  ProfileEdit.weightInput parse true "abc" = None.
Proof.
  intros parse. split.
  - apply (proj1 (weightInput_units parse "150") 150); [reflexivity|discriminate].
  - apply (proj2 (weightInput_units parse "abc")). left. reflexivity.
Defined.

(** ** Onboarding: the steps and the goal *)

Lemma positive_inv (x : option Q) :
  OnboardingForm.positive x = true -> exists v, x = Some v /\ 0 < v.
Proof.
  destruct x as [v|]; [|discriminate]. simpl. intros H.
  apply andb_true_iff in H as [_ H]. exists v. split; [reflexivity|].
  apply gt_zero, H.
Qed.

Lemma calculated_is_round (a h w : Q) (al : ActivityLevel) (fg : FitnessGoal) :
  ~ a == 0 -> ~ h == 0 -> ~ w == 0 ->
  calculatedCalorieGoal (mkFormData (Some a) (Some h) (Some w) (Some al) (Some fg))
  = JS.Math_round (Reference.estimate a h w al fg).
Proof.
  intros Ha Hh Hw. unfold calculatedCalorieGoal; simpl.
  rewrite !truthy_num_true by assumption. simpl.
  apply Math_round_comp. unfold Reference.estimate.
  destruct (tables_agree al fg) as [-> ->]. ring.
Qed.

Lemma Qlt_nonzero (v : Q) : 0 < v -> ~ v == 0.
Proof. intros H E. rewrite E in H. discriminate H. Qed.

(** X17. When step 2 and step 3 of the onboarding form are valid, the
    five inputs of the estimator are present and age, height and weight are
    positive, so the goal shown is the rounded estimate and not the sentinel
    of a missing input. A height of zero, which is what two empty imperial
    fields give, makes step 2 invalid. [handleFinish] keeps a goal the form
    already holds when it is not zero, and otherwise takes the calculated
    one. *)
Theorem onboarding_steps_goal (f : OnboardingForm.Form) :
  (OnboardingForm.isStep2Valid f = true ->
   OnboardingForm.isStep3Valid f = true ->
   exists a h w al fg,
     OnboardingForm.biometrics f
     = mkFormData (Some a) (Some h) (Some w) (Some al) (Some fg) /\
     0 < a /\ 0 < h /\ 0 < w /\
     calculatedCalorieGoal (OnboardingForm.biometrics f)
     = JS.Math_round (Reference.estimate a h w al fg)) /\
  (forall v, height (OnboardingForm.biometrics f) = Some v -> v == 0 ->
     OnboardingForm.isStep2Valid f = false) /\
  (forall g, OnboardingForm.calorieGoal f = Some g -> ~ g == 0 ->
     OnboardingForm.finishCalorieGoal f = g) /\
  (OnboardingForm.calorieGoal f = None \/
   (exists g, OnboardingForm.calorieGoal f = Some g /\ g == 0) ->
   OnboardingForm.finishCalorieGoal f
   = inject_Z (calculatedCalorieGoal (OnboardingForm.biometrics f))).
Proof.
  split; [|split; [|split]].
  - unfold OnboardingForm.isStep2Valid, OnboardingForm.isStep3Valid.
    intros H2 H3.
    apply andb_true_iff in H2 as [H2 _].
    apply andb_true_iff in H2 as [H2 Hw].
    apply andb_true_iff in H2 as [Ha Hh].
    apply positive_inv in Ha as (a & Ea & Ha).
    apply positive_inv in Hh as (h & Eh & Hh).
    apply positive_inv in Hw as (w & Ew & Hw).
    destruct (OnboardingForm.biometrics f) as [oa oh ow oal ofg]. simpl in *.
    subst oa oh ow.
    destruct oal as [al|]; [|discriminate]. destruct ofg as [fg|]; [|discriminate].
    exists a, h, w, al, fg. split; [reflexivity|].
    split; [exact Ha|]. split; [exact Hh|]. split; [exact Hw|].
    apply calculated_is_round; apply Qlt_nonzero; assumption.
  - intros v Hv Hz. unfold OnboardingForm.isStep2Valid. rewrite Hv. simpl.
    rewrite (truthy_num_false _ Hz). simpl. rewrite andb_false_r. reflexivity.
  - intros g Hg Hnz. unfold OnboardingForm.finishCalorieGoal.
    rewrite Hg, (truthy_num_true _ Hnz). reflexivity.
  - intros [H|(g & H & Hz)]; unfold OnboardingForm.finishCalorieGoal; rewrite H;
      [reflexivity|]. rewrite (truthy_num_false _ Hz). reflexivity.
Qed.

Lemma onboarding_steps_goal_witness :
  let f := OnboardingForm.mkForm
             (mkFormData (Some 30) (Some 170) (Some 70) (Some Sedentary)
                (Some LoseWeight))
             (Some 65) (Some "None"%string) None in
  (exists a h w al fg,
     OnboardingForm.biometrics f
     = mkFormData (Some a) (Some h) (Some w) (Some al) (Some fg) /\
     0 < a /\ 0 < h /\ 0 < w /\
     calculatedCalorieGoal (OnboardingForm.biometrics f)
     = JS.Math_round (Reference.estimate a h w al fg)) /\
  OnboardingForm.finishCalorieGoal f = 1441.
Proof.
  intros f. split.
  - apply (proj1 (onboarding_steps_goal f)); reflexivity.
  - rewrite (proj2 (proj2 (proj2 (onboarding_steps_goal f)))); [reflexivity|].
    left. reflexivity.
Defined.

Lemma Qfloor_unique (y : Q) (z : Z) :
  inject_Z z <= y -> y < inject_Z (z + 1) -> Qfloor y = z.
Proof.
  intros H1 H2.
  pose proof (Qfloor_le y) as F1. pose proof (Qlt_floor y) as F2.
  assert (A : (z < Qfloor y + 1)%Z).
  { rewrite Zlt_Qlt. eapply Qle_lt_trans; eassumption. }
  assert (B : (Qfloor y < z + 1)%Z).
  { rewrite Zlt_Qlt. eapply Qle_lt_trans; eassumption. }
  lia.
Qed.

Lemma Math_round_shift (x : Q) (n : Z) :
  JS.Math_round (x + inject_Z n) = (JS.Math_round x + n)%Z.
Proof.
  unfold JS.Math_round. apply Qfloor_unique.
  - pose proof (Qfloor_le (x + (1 # 2))) as F. rewrite inject_Z_plus. lra.
  - pose proof (Qlt_floor (x + (1 # 2))) as F.
    rewrite !inject_Z_plus in *. lra.
Qed.

Lemma Math_round_mono (x y : Q) :
  x <= y -> (JS.Math_round x <= JS.Math_round y)%Z.
Proof. intros H. unfold JS.Math_round. apply Qfloor_resp_le. lra. Qed.

(** X18. With age, height and weight present and not zero: for every
    activity level the goal for Maintain Weight is exactly 500 above the goal
    for Lose Weight, and the goal for Build Muscle exactly 300 above the goal
    for Maintain Weight; and when the basal rate is not negative a more
    active level never gives a lower goal. *)
Theorem calorie_goal_order (a h w : Q) :
  ~ a == 0 -> ~ h == 0 -> ~ w == 0 ->
  let goal al fg :=
    calculatedCalorieGoal
      (mkFormData (Some a) (Some h) (Some w) (Some al) (Some fg)) in
  (forall al,
     goal al MaintainWeight = (goal al LoseWeight + 500)%Z /\
     goal al BuildMuscle = (goal al MaintainWeight + 300)%Z) /\
  (0 <= 10 * w + (625 # 100) * h - 5 * a + 5 ->
   forall fg,
     (goal Sedentary fg <= goal LightlyActive fg)%Z /\
     (goal LightlyActive fg <= goal ModeratelyActive fg)%Z /\
     (goal ModeratelyActive fg <= goal VeryActive fg)%Z /\
     (goal VeryActive fg <= goal ExtraActive fg)%Z).
Proof.
  intros Ha Hh Hw goal.
  assert (G : forall al fg, goal al fg = JS.Math_round (Reference.estimate a h w al fg)).
  { intros al fg. apply calculated_is_round; assumption. }
  split.
  - intros al. rewrite !G. split.
    + rewrite <- Math_round_shift. apply Math_round_comp.
      unfold Reference.estimate. simpl Reference.goalAdjustment.
      change (inject_Z 500) with 500. ring.
    + rewrite <- Math_round_shift. apply Math_round_comp.
      unfold Reference.estimate. simpl Reference.goalAdjustment.
      change (inject_Z 300) with 300. ring.
  - intros Hb fg. rewrite !G.
    set (b := 10 * w + (625 # 100) * h - 5 * a + 5) in *.
    unfold Reference.estimate. fold b. clearbody b.
    repeat split; apply Math_round_mono; simpl Reference.activityFactor; nra.
Qed.

Lemma calorie_goal_order_witness :
  let goal al fg :=
    calculatedCalorieGoal
      (mkFormData (Some 30) (Some 170) (Some 70) (Some al) (Some fg)) in
  goal Sedentary MaintainWeight = (goal Sedentary LoseWeight + 500)%Z /\
  (goal Sedentary BuildMuscle <= goal LightlyActive BuildMuscle)%Z.
Proof.
  intros goal.
  assert (N : forall q : Q, (0 < q) -> ~ q == 0) by (apply Qlt_nonzero).
  pose proof (calorie_goal_order 30 170 70 (N 30 eq_refl) (N 170 eq_refl)
                (N 70 eq_refl)) as [H1 H2].
  split.
  - apply (H1 Sedentary).
  - apply (H2 ltac:(discriminate) BuildMuscle).
Defined.

(** ** The community feed *)




(** ** The recipe finder *)

Lemma filter_key_absent (k : option string) (l : list Recipes.Recipe) :
  existsb (fun fav => bool_decide (Recipes.key fav = k)) l = false ->
  filter (fun fav => negb (bool_decide (Recipes.key fav = k))) l = l.
Proof.
  induction l as [|r l IH]; [reflexivity|]. simpl. intros H.
  apply orb_false_iff in H as [H1 H2].
  rewrite filter_cons_True by (rewrite H1; exact I).
  rewrite IH by exact H2. reflexivity.
Qed.

Lemma filter_key_removes (k : option string) (l : list Recipes.Recipe) :
  existsb (fun fav => bool_decide (Recipes.key fav = k))
    (filter (fun fav => negb (bool_decide (Recipes.key fav = k))) l) = false.
Proof.
  induction l as [|r l IH]; [reflexivity|].
  destruct (bool_decide (Recipes.key r = k)) eqn:E.
  - rewrite filter_cons_False by (rewrite E; simpl; tauto). exact IH.
  - rewrite filter_cons_True by (rewrite E; exact I). simpl. rewrite E, IH.
    reflexivity.
Qed.

(** X21. A recipe without a url and without an id is never a favourite
    and toggling it does nothing. Toggling a favourite removes every
    favourite of the same key and nothing else, after which it is no
    favourite. Toggling a recipe that is no favourite, while no other one is
    being added and its image is at hand, puts it last, after which it is a
    favourite; toggling it once more gives back the list there was. While
    another recipe is being added, nothing is added. *)
Theorem toggleFavorite_round_trip (recipe : Recipes.Recipe) (st : Recipes.State) :
  (Recipes.truthy_opt (Recipes.key recipe) = false ->
   Recipes.isFavorite (Recipes.favorites st) (Some recipe) = false /\
   forall g, Recipes.toggleFavorite recipe g st = st) /\
  (Recipes.isFavorite (Recipes.favorites st) (Some recipe) = true ->
   forall g,
     let st' := Recipes.toggleFavorite recipe g st in
     Recipes.isFavorite (Recipes.favorites st') (Some recipe) = false /\
     Recipes.favorites st'
     = filter (fun fav => Recipes.key fav <> Recipes.key recipe)
         (Recipes.favorites st) /\
     Recipes.customRecipes st' = Recipes.customRecipes st) /\
  (Recipes.truthy_opt (Recipes.key recipe) = true ->
   Recipes.isFavorite (Recipes.favorites st) (Some recipe) = false ->
   (Recipes.truthy_opt (Recipes.favoritingId st) = true ->
    forall g, Recipes.toggleFavorite recipe g st = st) /\
   (Recipes.truthy_opt (Recipes.favoritingId st) = false ->
    forall img,
      let st' := Recipes.toggleFavorite recipe (Some img) st in
      Recipes.isFavorite (Recipes.favorites st') (Some recipe) = true /\
      (exists fav,
         Recipes.favorites st' = Recipes.favorites st ++ [fav] /\
         Recipes.key fav = Recipes.key recipe /\
         Recipes.title fav = Recipes.title recipe) /\
      Recipes.favoritingId st' = None /\
      forall g,
        Recipes.favorites (Recipes.toggleFavorite recipe g st')
        = Recipes.favorites st)).
Proof.
  split; [|split].
  - intros Hk. split.
    + unfold Recipes.isFavorite. rewrite Hk. reflexivity.
    + intros g. unfold Recipes.toggleFavorite. rewrite Hk. reflexivity.
  - intros Hfav g. cbn zeta.
    assert (Hk : Recipes.truthy_opt (Recipes.key recipe) = true).
    { unfold Recipes.isFavorite in Hfav.
      destruct (Recipes.truthy_opt (Recipes.key recipe)); [reflexivity|discriminate]. }
    unfold Recipes.toggleFavorite. rewrite Hk, Hfav. simpl.
    split; [|split; [|reflexivity]].
    + unfold Recipes.isFavorite. rewrite Hk. apply filter_key_removes.
    + apply list_filter_iff. intros fav.
      destruct (decide (Recipes.key fav = Recipes.key recipe)) as [E|E].
      * rewrite bool_decide_eq_true_2 by exact E. simpl. tauto.
      * rewrite bool_decide_eq_false_2 by exact E. simpl. tauto.
  - intros Hk Hnot. split.
    + intros Hpend g. unfold Recipes.toggleFavorite. rewrite Hk, Hnot, Hpend.
      reflexivity.
    + intros Hfree img. cbn zeta.
      assert (Habs : existsb
        (fun fav => bool_decide (Recipes.key fav = Recipes.key recipe))
        (Recipes.favorites st) = false).
      { unfold Recipes.isFavorite in Hnot. rewrite Hk in Hnot. exact Hnot. }
      set (fav := Recipes.mkRecipe (Recipes.id recipe) (Recipes.isCustom recipe)
            (Recipes.title recipe) (Recipes.description recipe)
            (Recipes.ingredients recipe) (Recipes.instructions recipe)
            (Recipes.url recipe)
            (if Recipes.startsWith "https://source.unsplash.com" (Recipes.imageUrl recipe)
                && Recipes.truthy_opt (Recipes.imageSearchQuery recipe)
             then img else Recipes.imageUrl recipe)
            (Recipes.imageSearchQuery recipe)).
      assert (E : Recipes.toggleFavorite recipe (Some img) st
                  = Recipes.mkState (Recipes.favorites st ++ [fav]) None
                      (Recipes.customRecipes st)).
      { unfold Recipes.toggleFavorite. rewrite Hk, Hnot, Hfree. simpl.
        unfold fav.
        destruct (Recipes.startsWith "https://source.unsplash.com"
                    (Recipes.imageUrl recipe)
                  && Recipes.truthy_opt (Recipes.imageSearchQuery recipe));
          reflexivity. }
      rewrite E. simpl.
      assert (Hkey : Recipes.key fav = Recipes.key recipe) by reflexivity.
      assert (Hnow : Recipes.isFavorite (Recipes.favorites st ++ [fav]) (Some recipe)
                     = true).
      { unfold Recipes.isFavorite. rewrite Hk, existsb_app. simpl.
        rewrite Hkey, bool_decide_eq_true_2 by reflexivity.
        rewrite orb_true_r. reflexivity. }
      split; [exact Hnow|]. split; [exists fav; repeat split|].
      split; [reflexivity|].
      intros g. unfold Recipes.toggleFavorite.
      cbn [Recipes.favorites Recipes.favoritingId Recipes.customRecipes].
      rewrite Hk, Hnow. cbn [negb Recipes.favorites]. rewrite filter_app.
      rewrite filter_key_absent by exact Habs.
      rewrite filter_cons_False; [apply app_nil_r|].
      rewrite Hkey, bool_decide_eq_true_2 by reflexivity. simpl. tauto.
Qed.

Lemma toggleFavorite_round_trip_witness :
  let soup := Recipes.mkRecipe None None "Soup" "Warm" [] []
                (Some "https://x.org/soup"%string) "soup.png" None in
  let st := Recipes.mkState [] None [] in
  Recipes.isFavorite (Recipes.favorites (Recipes.toggleFavorite soup (Some "g.png"%string) st))
    (Some soup) = true /\
  Recipes.favorites
    (Recipes.toggleFavorite soup None
       (Recipes.toggleFavorite soup (Some "g.png"%string) st)) = [].
Proof.
  intros soup st.
  destruct (proj2 (proj2 (toggleFavorite_round_trip soup st)) eq_refl eq_refl)
    as [_ H].
  destruct (H eq_refl "g.png"%string) as (H1 & _ & _ & H2).
  split; [exact H1|apply H2].
Defined.











(** ** The application shell: saving and reloading the profile, the theme *)

Lemma defaultProfile_keys (k : string) (d : JSON) :
  defaultProfile !! k = Some d ->
  k = "name"%string \/ k = "email"%string \/ k = "avatarUrl"%string.
Proof.
  unfold defaultProfile. intros H.
  apply lookup_insert_Some in H as [[<- _]|[_ H]]; [tauto|].
  apply lookup_insert_Some in H as [[<- _]|[_ H]]; [tauto|].
  apply lookup_singleton_Some in H as [<- _]. tauto.
Qed.

Lemma truthy_prop_present (obj : gmap string JSON) (k : string) :
  truthy_prop obj k = true -> exists v, obj !! k = Some v.
Proof.
  unfold truthy_prop. destruct (obj !! k) as [v|]; [eauto|discriminate].
Qed.

(** The defaults add nothing to a profile that has the three fields. *)
Lemma complete_profile_merge (profile : gmap string JSON) :
  truthy_prop profile "name" = true ->
  truthy_prop profile "email" = true ->
  truthy_prop profile "avatarUrl" = true ->
  profile ∪ defaultProfile = profile.
Proof.
  intros Hn He Ha. apply map_eq. intros k. rewrite lookup_union.
  destruct (profile !! k) as [v|] eqn:E.
  - destruct (defaultProfile !! k); reflexivity.
  - destruct (defaultProfile !! k) as [d|] eqn:D; [|reflexivity].
    apply defaultProfile_keys in D as [->|[->| ->]];
      [apply truthy_prop_present in Hn as [v Hv]
      |apply truthy_prop_present in He as [v Hv]
      |apply truthy_prop_present in Ha as [v Hv]]; congruence.
Qed.

(** X23. A profile with a name, an email and an avatar that is saved is
    read back unchanged when the application starts again, provided
    [JSON.parse] reads back what [JSON.stringify] wrote: after
    [updateProfile] the start gives that very profile and the onboarding
    flag storage had, and clears nothing; after [handleOnboardingComplete]
    the dashboard is the active view and the start gives that very state of
    the application, which shows the main screen. *)
Theorem saved_profile_reloads (JSON_parse : string -> option JSON)
    (JSON_stringify : gmap string JSON -> string)
    (profile : gmap string JSON) (st : AppShell.State) (ls : gmap string string)
    (Hparse : JSON_parse (JSON_stringify profile) = Some (JObj profile))
    (Htext : JSON_stringify profile <> ""%string)
    (Hname : truthy_prop profile "name" = true)
    (Hemail : truthy_prop profile "email" = true)
    (Havatar : truthy_prop profile "avatarUrl" = true) :
  (let '(st1, ls1) := AppShell.updateProfile JSON_stringify profile st ls in
   forall st0,
     loadProfile JSON_parse st0 ls1
     = (mkState (Some profile)
          (bool_decide (ls !! "nutrisnap_onboardingComplete"%string
                        = Some "true"%string)), ls1)) /\
  (let '(st2, ls2) :=
     AppShell.handleOnboardingComplete JSON_stringify profile st ls in
   AppShell.activeView st2 = AppShell.VDashboard /\
   render (AppShell.app st2) = Main /\
   forall st0, loadProfile JSON_parse st0 ls2 = (AppShell.app st2, ls2)).
Proof.
  assert (Ht : JS.truthy_str (JSON_stringify profile) = true).
  { destruct (JSON_stringify profile); [congruence|reflexivity]. }
  split.
  - unfold AppShell.updateProfile. intros st0. unfold loadProfile.
    rewrite lookup_insert_eq, Ht, Hparse.
    cbn [truthy typeof_object own_properties andb].
    rewrite (complete_profile_merge profile Hname Hemail Havatar).
    rewrite Hname, Hemail, Havatar. cbn [andb].
    rewrite lookup_insert_ne by discriminate. reflexivity.
  - unfold AppShell.handleOnboardingComplete, AppShell.updateProfile.
    cbn [AppShell.app AppShell.activeView userProfile].
    split; [reflexivity|]. split; [reflexivity|].
    intros st0. unfold loadProfile.
    rewrite lookup_insert_ne by discriminate.
    rewrite lookup_insert_eq, Ht, Hparse.
    cbn [truthy typeof_object own_properties andb].
    rewrite (complete_profile_merge profile Hname Hemail Havatar).
    rewrite Hname, Hemail, Havatar. cbn [andb].
    rewrite lookup_insert_eq. rewrite bool_decide_eq_true_2 by reflexivity.
    reflexivity.
Qed.

Lemma saved_profile_reloads_witness :
  let profile : gmap string JSON :=
    {[ "name"%string := JStr "Ann"; "email"%string := JStr "ann@x.org";
       "avatarUrl"%string := JStr "a.png"; "age"%string := JNum 30 ]} in
  let parse (s : string) := if (s =? "ann")%string then Some (JObj profile) else None in
  let stringify (p : gmap string JSON) := "ann"%string in
  loadProfile parse initial
      (snd (AppShell.handleOnboardingComplete stringify profile
              (AppShell.mkState initial AppShell.VHome) ∅))
    = (mkState (Some profile) true,
       snd (AppShell.handleOnboardingComplete stringify profile
              (AppShell.mkState initial AppShell.VHome) ∅)).
Proof.
  intros profile parse stringify.
  exact (proj2 (proj2 (proj2
    (saved_profile_reloads parse stringify profile
       (AppShell.mkState initial AppShell.VHome) ∅
       eq_refl ltac:(discriminate) eq_refl eq_refl eq_refl))) initial).
Defined.

(** X24. Toggling the theme gives light or dark, dark exactly from light,
    and writes only the theme to storage; the application started on that
    storage begins with the theme just chosen, while one started without a
    stored theme, or with an empty one, begins light; from light or dark
    two toggles give back the theme there was. *)
Theorem theme_toggle_persists (theme : string) (ls : gmap string string) :
  let '(t1, ls1) := AppShell.toggleTheme theme ls in
  (t1 = "light"%string \/ t1 = "dark"%string) /\
  (t1 = "dark"%string <-> theme = "light"%string) /\
  AppShell.initialTheme ls1 = t1 /\
  (forall k, k <> "nutrisnap_theme"%string -> ls1 !! k = ls !! k) /\
  (theme = "light"%string \/ theme = "dark"%string ->
   fst (AppShell.toggleTheme t1 ls1) = theme) /\
  (ls !! "nutrisnap_theme"%string = None \/
   ls !! "nutrisnap_theme"%string = Some ""%string ->
   AppShell.initialTheme ls = "light"%string).
Proof.
  unfold AppShell.toggleTheme, AppShell.initialTheme.
  rewrite lookup_insert_eq.
  destruct (String.eqb_spec theme "light") as [E|E].
  - repeat split; try tauto; try discriminate.
    + intros k Hk. apply lookup_insert_ne. congruence.
    + intros _. simpl. congruence.
    + intros [-> | ->]; reflexivity.
  - repeat split; try tauto; try discriminate.
    + intros k Hk. apply lookup_insert_ne. congruence.
    + intros [H|H]; [contradiction|]. simpl. congruence.
    + intros [-> | ->]; reflexivity.
Qed.

(** ** Editing an item of a meal, and logging an analysed photograph *)

Lemma editing_after_changes (parseFloat : string -> Q)
    (changes : list (string * string)) (st : Dashboard.State)
    (e : EditingItemState) :
  editingItem st = Some e ->
  foldl (fun s c => handleEditFormChange parseFloat c.1 c.2 s) st changes
  = set_editingItem
      (Some (mkEditing (mealId e) (itemIndex e)
               (foldl (fun d c => editField parseFloat c.1 c.2 d) (data e) changes)))
      st.
Proof.
  revert st e. induction changes as [|c changes IH]; intros st e He.
  - simpl. destruct st, e. simpl in *. subst. reflexivity.
  - cbn [foldl]. unfold handleEditFormChange at 2. rewrite He.
    erewrite IH by reflexivity. destruct st. reflexivity.
Qed.

(** X25. An editing session on the item at a valid index of the one meal
    with the given id: after [handleStartEdit] and any changes of the form,
    [handleCancelEdit] leaves the log as it was, with no item being edited,
    and [handleSaveEdit] puts the item as the form has it at that index of
    that meal and nowhere else, writes the new log to today's bucket and
    ends the edit; saved without a change, the log is the one there was.
    With no item being edited [handleSaveEdit] does nothing. *)
Theorem edit_session (parseFloat : string -> Q) (now : Z)
    (entryId ts : string) (idx : nat) (l1 l2 : list DailyLogEntry)
    (items : list MacroData) (old : MacroData)
    (changes : list (string * string)) (st : Dashboard.State) (ls : Storage) :
  items !! idx = Some old ->
  Forall (fun e => entry_id e <> entryId) (l1 ++ l2) ->
  dailyLog st = l1 ++ LoggedMealItem entryId ts items :: l2 ->
  let st1 :=
    foldl (fun s c => handleEditFormChange parseFloat c.1 c.2 s)
      (handleStartEdit entryId old (Z.of_nat idx) st) changes in
  let new := foldl (fun d c => editField parseFloat c.1 c.2 d) old changes in
  let newLog := l1 ++ LoggedMealItem entryId ts (<[idx := new]> items) :: l2 in
  handleCancelEdit st1 = handleCancelEdit st /\
  handleSaveEdit now st1 ls
  = Some (handleCancelEdit (set_dailyLog newLog st),
          mkStorage (<[getTodaysDateKey now := newLog]> (nutrisnap_dailyLogs ls))
            (nutrisnap_waterIntake ls) (nutrisnap_logDate ls)) /\
  (changes = [] -> newLog = dailyLog st) /\
  handleSaveEdit now (handleCancelEdit st1) ls = Some (handleCancelEdit st1, ls).
Proof.
  intros Hold Hids Hlog st1 new newLog.
  assert (E : st1 = set_editingItem
                      (Some (mkEditing entryId (Z.of_nat idx) new)) st).
  { unfold st1. erewrite editing_after_changes by reflexivity.
    destruct st. reflexivity. }
  split; [rewrite E; destruct st; reflexivity|].
  split; [|split].
  - rewrite E. unfold handleSaveEdit.
    cbn [editingItem set_editingItem mealId itemIndex data dailyLog].
    rewrite Hlog.
    rewrite (editMealItem_unique entryId ts idx l1 l2 items old new Hold Hids).
    fold newLog. destruct st. reflexivity.
  - intros ->. unfold newLog, new. simpl. rewrite list_insert_id by exact Hold.
    symmetry. exact Hlog.
  - rewrite E. destruct st. reflexivity.
Qed.

Lemma edit_session_witness :
  let apple := mkMacroData "apple" 95 0 25 0 19 in
  let toast := mkMacroData "toast" 90 3 17 1 1 in
  let st := Dashboard.mkState [LoggedMealItem "meal_1" "08:00" [apple; toast]] 0 None
              [blankManualItem] [blankActivityItem] None in
  let ls := mkStorage ∅ None None in
  let st1 :=
    handleEditFormChange (fun _ => 120) "calories" "120"
      (handleEditFormChange (fun _ => 120) "foodName" "bagel"
         (handleStartEdit "meal_1" toast 1 st)) in
  exists st2 ls2,
    handleSaveEdit 1704067200000 st1 ls = Some (st2, ls2) /\
    dailyLog st2
    = [LoggedMealItem "meal_1" "08:00"
         [apple; mkMacroData "bagel" 120 3 17 1 1]] /\
    editingItem st2 = None.
Proof.
  intros apple toast st ls st1.
  destruct (edit_session (fun _ => 120) 1704067200000 "meal_1" "08:00" 1 [] []
              [apple; toast] toast
              [("foodName"%string, "bagel"%string); ("calories"%string, "120"%string)]
              st ls eq_refl ltac:(constructor) eq_refl) as (_ & H & _).
  eexists _, _. split; [exact H|]. split; reflexivity.
Defined.

(** X26. An analysis that answers logs one meal, first in the log, whose
    items are the answer as it is, also when the answer is empty: the totals
    grow by the totals of those items, the error is cleared, and today's
    bucket holds the new log while every other bucket and the water intake
    stay. An analysis that throws leaves the log and the storage as they
    were and sets a message that is not empty. *)
Theorem analysis_logged (now : Z) (ts : string)
    (analysis : string + list MacroData) (st : Dashboard.State) (ls : Storage) :
  let r := handleAnalyzeClick now ts analysis st ls in
  match analysis with
  | inr items =>
      error r.1 = None /\
      dailyLog r.1
      = LoggedMealItem ("meal_" ++ JS.string_of_int now) ts items :: dailyLog st /\
      Totals_eq (Totals.computeTotals (dailyLog r.1))
        (Totals_plus (Totals.computeTotals (dailyLog st))
           (Totals.computeTotals [LoggedMealItem "" "" items])) /\
      nutrisnap_dailyLogs r.2 !! getTodaysDateKey now = Some (dailyLog r.1) /\
      (forall k, k <> getTodaysDateKey now ->
         nutrisnap_dailyLogs r.2 !! k = nutrisnap_dailyLogs ls !! k) /\
      nutrisnap_waterIntake r.2 = nutrisnap_waterIntake ls /\
      waterIntake r.1 = waterIntake st
  | inl _ =>
      dailyLog r.1 = dailyLog st /\ r.2 = ls /\
      exists msg, error r.1 = Some msg /\ msg <> ""%string
  end.
Proof.
  cbn zeta. destruct analysis as [msg|items].
  - simpl. split; [reflexivity|]. split; [reflexivity|].
    destruct msg as [|c msg]; eexists; (split; [reflexivity|discriminate]).
  - unfold handleAnalyzeClick, saveLog.
    cbn [fst snd dailyLog error waterIntake set_dailyLog set_error
         nutrisnap_dailyLogs nutrisnap_waterIntake].
    destruct st as [log w e m a ed].
    cbn [fst snd dailyLog error waterIntake set_dailyLog set_error
         nutrisnap_dailyLogs nutrisnap_waterIntake].
    split; [reflexivity|]. split; [reflexivity|]. split.
    + rewrite !computeTotals_dailyTotals.
      change (?m :: log) with ([m] ++ log).
      rewrite dailyTotals_app.
      unfold Totals_eq, Totals_plus, Reference.dailyTotals, Reference.mealItems,
        Reference.burned; simpl. rewrite !app_nil_r.
      repeat split; ring.
    + split; [apply lookup_insert_eq|]. split; [|split; reflexivity].
      intros k Hk. apply lookup_insert_ne. congruence.
Qed.

(** ** Rows added to a form, posts and recipes deleted *)

(** X27. A row added to a form that has a row is removed again by
    removing the last row: the form is the one there was. *)
Theorem add_then_remove_row (st : Dashboard.State) :
  ((1 <= length (manualItems st))%nat ->
   Forms.removeManualItem (length (manualItems st)) (Forms.addManualItem st) = st) /\
  ((1 <= length (activityItems st))%nat ->
   Forms.removeActivityItem (length (activityItems st)) (Forms.addActivityItem st)
   = st).
Proof.
  assert (D : forall (A : Type) (l : list A) (x : A),
    delete (length l) (l ++ [x]) = l).
  { intros A l x. induction l as [|y l IH]; simpl; [reflexivity|].
    f_equal. exact IH. }
  split; intros H.
  - unfold Forms.removeManualItem, Forms.addManualItem.
    destruct st as [log w e m a ed]. cbn [manualItems set_manualItems] in *.
    rewrite length_app. simpl length.
    replace (1 <? length m + 1)%nat with true by (symmetry; apply Nat.ltb_lt; lia).
    rewrite filter_index_item by lia. rewrite Nat2Z.id, D. reflexivity.
  - unfold Forms.removeActivityItem, Forms.addActivityItem.
    destruct st as [log w e m a ed]. cbn [activityItems set_activityItems] in *.
    rewrite length_app. simpl length.
    replace (1 <? length a + 1)%nat with true by (symmetry; apply Nat.ltb_lt; lia).
    rewrite filter_index_item by lia. rewrite Nat2Z.id, D. reflexivity.
Qed.

(** X28. A deletion that is confirmed removes every post, or every custom
    recipe, with the given id and keeps the others in their order; one that
    is declined, or that names an id nothing has, changes nothing; deleting
    twice is deleting once. Deleting a custom recipe leaves the favourites
    as they are, so a favourite made of it stays one. *)
Theorem confirmed_delete (confirm : bool) :
  (forall postId st,
     let st' := Community.handleDeletePost confirm postId st in
     (confirm = true ->
      Forall (fun p => Community.id p <> postId) (Community.posts st') /\
      (forall p, Community.id p <> postId ->
         p ∈ Community.posts st' <-> p ∈ Community.posts st)) /\
     Community.posts st' `sublist_of` Community.posts st /\
     (confirm = false \/
      Forall (fun p => Community.id p <> postId) (Community.posts st) ->
      st' = st) /\
     Community.handleDeletePost confirm postId st' = st') /\
  (forall rid st,
     let st' := Recipes.handleDeleteCustomRecipe confirm rid st in
     (confirm = true ->
      Forall (fun r => Recipes.id r <> Some rid) (Recipes.customRecipes st') /\
      (forall r, Recipes.id r <> Some rid ->
         r ∈ Recipes.customRecipes st' <-> r ∈ Recipes.customRecipes st)) /\
     Recipes.customRecipes st' `sublist_of` Recipes.customRecipes st /\
     Recipes.favorites st' = Recipes.favorites st /\
     (confirm = false \/
      Forall (fun r => Recipes.id r <> Some rid) (Recipes.customRecipes st) ->
      st' = st) /\
     Recipes.handleDeleteCustomRecipe confirm rid st' = st').
Proof.
  assert (F : forall (A : Type) (p : A -> bool) (l : list A),
    Forall (fun x => p x = true) l -> filter (fun x => p x) l = l).
  { intros A p l H. induction H as [|x l Hx _ IH]; [reflexivity|].
    rewrite filter_cons_True by (rewrite Hx; exact I). rewrite IH. reflexivity. }
  assert (G : forall (A : Type) (p : A -> bool) (l : list A),
    Forall (fun x => p x = true) (filter (fun x => p x) l)).
  { intros A p l. apply Forall_forall. intros x Hx.
    apply list_elem_of_filter in Hx as [Hx _].
    destruct (p x); [reflexivity|destruct Hx]. }
  split.
  - intros postId st. cbn zeta. unfold Community.handleDeletePost.
    destruct confirm.
    + destruct st as [ps n o c]. cbn [Community.posts].
      set (keep := fun p => negb (Community.id p =? postId)%Z).
      assert (K : forall p, keep p = true <-> Community.id p <> postId).
      { intros p. unfold keep. rewrite negb_true_iff. apply Z.eqb_neq. }
      split; [intros _; split|split; [apply sublist_filter|split]].
      * eapply Forall_impl; [apply (G _ keep)|]. intros p. apply K.
      * intros p Hp. rewrite list_elem_of_filter. apply K in Hp.
        split; [tauto|]. intros H. split; [|exact H].
        change (Is_true (keep p)). rewrite Hp. exact I.
      * intros [H|H]; [discriminate|]. f_equal. apply F.
        eapply Forall_impl; [exact H|]. intros p. apply K.
      * f_equal. apply F, G.
    + split; [discriminate|]. split; [reflexivity|]. split; reflexivity.
  - intros rid st. cbn zeta. unfold Recipes.handleDeleteCustomRecipe.
    destruct confirm.
    + destruct st as [fs fid cs]. cbn [Recipes.customRecipes Recipes.favorites].
      set (keep := fun r => negb (bool_decide (Recipes.id r = Some rid))).
      assert (K : forall r, keep r = true <-> Recipes.id r <> Some rid).
      { intros r. unfold keep. rewrite negb_true_iff, bool_decide_eq_false.
        tauto. }
      split; [intros _; split|split; [apply sublist_filter|split; [reflexivity|split]]].
      * eapply Forall_impl; [apply (G _ keep)|]. intros r. apply K.
      * intros r Hr. rewrite list_elem_of_filter. apply K in Hr.
        split; [tauto|]. intros H. split; [|exact H].
        change (Is_true (keep r)). rewrite Hr. exact I.
      * intros [H|H]; [discriminate|]. f_equal. apply F.
        eapply Forall_impl; [exact H|]. intros r. apply K.
      * f_equal. apply F, G.
    + split; [discriminate|]. split; [reflexivity|]. split; [reflexivity|].
      split; reflexivity.
Qed.
